(** * DoubleClick Fast Fetch eligibility (doubleclick-a4a-config.js)

    A shallow embedding of the class [DoubleclickA4aEligibility] and of the
    exported function [doubleclickIsA4AEnabled] of
    extensions/amp-ad-network-doubleclick-impl/0.1/doubleclick-a4a-config.js,
    followed by the properties of the experiment selection and of the
    Fast Fetch decision.

    Conventions of the embedding:
    - JavaScript strings are [string]; a value of type [?string] is an
      [option string] ([None] for null and undefined, which the code never
      tells apart);
    - the object [activeExperiments_], used as a map from experiment ids to
      booleans, is a [gmap string bool]; experiment ids are the decimal
      branch identifiers, the members inherited from Object.prototype are
      not modelled;
    - the imported collaborators (traffic-experiments, experiments, mode,
      utils) are parameters of the section [Eligibility]; they act on a
      state of their own (win.experimentBranches, the data-experiment-id
      attribute of the element) and the functions of src/experiments may
      throw;
    - methods are computations in a state-and-exception monad over the
      state of the singleton and of the collaborators, extended with the
      history of the calls made to the collaborators. *)

From Stdlib Require Import String Ascii List ZArith Bool Lia.
From stdpp Require Import base option list strings gmap.

Local Open Scope string_scope.
Local Open Scope list_scope.

(** ** JavaScript values *)

Module Js.

(** The values a method of the class may return. *)
Inductive value : Type :=
| Undefined
| Null
| Boolean (b : bool)
| Str (s : string).

Definition is_boolean (v : value) : bool :=
  match v with Boolean _ => true | _ => false end.

Definition is_string_or_null (v : value) : bool :=
  match v with Str _ | Null => true | _ => false end.

(** ToBoolean on a [?string]: null, undefined and the empty string are
    falsy. *)
Definition truthy (v : option string) : bool :=
  match v with
  | Some s => negb (String.eqb s "")
  | None => false
  end.

(** [a || b] on [?string] operands, with [b] already evaluated. *)
Definition or_else (a b : option string) : option string :=
  if truthy a then a else b.

(** *** ToNumber on the numeric strings the URL parameter can hold

    extractUrlExperimentId yields the capture of [-?\d+] or null; on
    such strings ToNumber is the signed decimal value.  Any other string
    is read as NaN. *)

Definition digit_of (c : ascii) : option Z :=
  let n := Z.of_nat (nat_of_ascii c) in
  if ((48 <=? n) && (n <=? 57))%Z then Some (n - 48)%Z else None.

Fixpoint digits_value (acc : Z) (s : string) : option Z :=
  match s with
  | EmptyString => Some acc
  | String c s' =>
      match digit_of c with
      | Some d => digits_value (10 * acc + d)%Z s'
      | None => None
      end
  end.

Definition to_number (s : string) : option Z :=
  match s with
  | EmptyString => Some 0%Z
  | String "-"%char (String _ _ as ds) => Z.opp <$> digits_value 0 ds
  | _ => digits_value 0 s
  end.

(** [v == n] for a [?string] [v] and a number [n]: null and undefined
    are equal to no number, a string is converted with ToNumber. *)
Definition loose_eq_number (v : option string) (n : Z) : bool :=
  match v with
  | Some s =>
      match to_number s with
      | Some m => Z.eqb m n
      | None => false
      end
  | None => false
  end.

(** [v == undefined]: holds of null and undefined only. *)
Definition loose_eq_undefined (v : option string) : bool :=
  match v with Some _ => false | None => true end.

End Js.

(** ** Regular expressions

    The fragment of JavaScript regular expressions used by [isCdnProxy],
    matched with derivatives.  [End] is the assertion [$] (without the
    multiline flag: the end of the input). *)

Module Regex.

Inductive t : Type :=
| Fail
| Eps
| Class (p : ascii -> bool)
| Seq (r1 r2 : t)
| Alt (r1 r2 : t)
| Star (r : t)
| End.

Definition Plus (r : t) : t := Seq r (Star r).
Definition Opt (r : t) : t := Alt r Eps.
Definition Chr (c : ascii) : t := Class (Ascii.eqb c).

Fixpoint Lit (s : string) : t :=
  match s with
  | EmptyString => Eps
  | String c s' => Seq (Chr c) (Lit s')
  end.

(** [.] matches every character but the line terminators. *)
Definition Dot : t :=
  Class (fun c => negb (Ascii.eqb c "010" || Ascii.eqb c "013")%char).

(** [nullable at_end r]: [r] matches the empty word, at the end of the
    input ([at_end = true]) or before a further character. *)
Fixpoint nullable (at_end : bool) (r : t) : bool :=
  match r with
  | Fail => false
  | Eps => true
  | Class _ => false
  | Seq r1 r2 => nullable at_end r1 && nullable at_end r2
  | Alt r1 r2 => nullable at_end r1 || nullable at_end r2
  | Star _ => true
  | End => at_end
  end.

Fixpoint deriv (c : ascii) (r : t) : t :=
  match r with
  | Fail | Eps | End => Fail
  | Class p => if p c then Eps else Fail
  | Seq r1 r2 =>
      if nullable false r1
      then Alt (Seq (deriv c r1) r2) (deriv c r2)
      else Seq (deriv c r1) r2
  | Alt r1 r2 => Alt (deriv c r1) (deriv c r2)
  | Star r1 => Seq (deriv c r1) (Star r1)
  end.

(** [matches_prefix r s]: some prefix of [s] matches [r]. *)
Fixpoint matches_prefix (r : t) (s : string) : bool :=
  match s with
  | EmptyString => nullable true r
  | String c s' => nullable false r || matches_prefix (deriv c r) s'
  end.

(** [/^r/.test(s)] *)
Definition test_anchored (r : t) (s : string) : bool := matches_prefix r s.

End Regex.

(** ** Windows and elements *)

(** The part of [win] this file reads itself. *)
Record Window : Type := {
  location_origin : string;
}.

(** The part of [element] this file reads itself: its attributes and the
    keys of its dataset. *)
Record Element : Type := {
  attributes : gmap string string;
  dataset : gmap string string;
}.

Definition getAttribute (element : Element) (name : string) : option string :=
  attributes element !! name.

Definition hasAttribute (element : Element) (name : string) : bool :=
  bool_decide (is_Some (attributes element !! name)).

(** [key in element.dataset] *)
Definition in_dataset (key : string) (element : Element) : bool :=
  bool_decide (is_Some (dataset element !! key)).

(** The result of getMode(win), as far as it is read here. *)
Record Mode : Type := {
  localDev : bool;
  test : bool;
}.

(** ** Constants *)

Definition DOUBLECLICK_A4A_EXPERIMENT_NAME : string := "expDoubleclickA4A".
Definition DFP_CANONICAL_FF_EXPERIMENT_NAME : string := "expDfpCanonicalFf".
Definition DOUBLECLICK_UNCONDITIONED_EXPERIMENT_NAME : string :=
  "expUnconditionedDoubleclick".

Module DOUBLECLICK_EXPERIMENT_FEATURE.
Definition HOLDBACK_EXTERNAL_CONTROL : string := "21060726".
Definition HOLDBACK_EXTERNAL : string := "21060727".
Definition DELAYED_REQUEST_CONTROL : string := "21060728".
Definition DELAYED_REQUEST : string := "21060729".
Definition SRA_CONTROL : string := "117152666".
Definition SRA : string := "117152667".
Definition HOLDBACK_INTERNAL_CONTROL : string := "2092613".
Definition HOLDBACK_INTERNAL : string := "2092614".
Definition CANONICAL_CONTROL : string := "21060932".
Definition CANONICAL_EXPERIMENT : string := "21060933".
Definition CACHE_EXTENSION_INJECTION_CONTROL : string := "21060955".
Definition CACHE_EXTENSION_INJECTION_EXP : string := "21060956".
Definition IDENTITY_CONTROL : string := "21060937".
Definition IDENTITY_EXPERIMENT : string := "21060938".
Definition UNCONDITIONED_FF_CONTROL : string := "21061145".
Definition UNCONDITIONED_FF_EXPERIMENT : string := "21061146".
(** The object has no property UNCONDITIONED_FF_CANONICAL_CTL nor
    UNCONDITIONED_FF_CANONICAL_EXP: reading either gives undefined. *)
Definition UNCONDITIONED_FF_CANONICAL_CTL : option string := None.
Definition UNCONDITIONED_FF_CANONICAL_EXP : option string := None.
End DOUBLECLICK_EXPERIMENT_FEATURE.

Module DOUBLECLICK_UNCONDITIONED_EXPERIMENTS.
Definition FF_CANONICAL_CTL : string := "21061145".
Definition FF_CANONICAL_EXP : string := "21061146".
End DOUBLECLICK_UNCONDITIONED_EXPERIMENTS.

Definition BETA_ATTRIBUTE : string := "data-use-beta-a4a-implementation".
Definition BETA_EXPERIMENT_ID : string := "2077831".

(** The regular expression of isCdnProxy: anchored at the start, the
    literal https://, an optional group made of one or more characters of
    the class [a-zA-Z0-9_-] and a dot, the literal cdn.ampproject.org, and
    one or more times either a slash followed by any number of [.], or
    the end of the input. *)
Definition googleCdnProxyRegex : Regex.t :=
  let in_range (lo hi c : ascii) : bool :=
    (nat_of_ascii lo <=? nat_of_ascii c)%nat
    && (nat_of_ascii c <=? nat_of_ascii hi)%nat in
  let label (c : ascii) : bool :=
    (in_range "a" "z" c || in_range "A" "Z" c || in_range "0" "9" c
    || Ascii.eqb c "_" || Ascii.eqb c "-")%char in
  Regex.Seq (Regex.Lit "https://")
    (Regex.Seq (Regex.Opt (Regex.Seq (Regex.Plus (Regex.Class label))
                                     (Regex.Chr "."%char)))
       (Regex.Seq (Regex.Lit "cdn.ampproject.org")
          (Regex.Plus (Regex.Alt (Regex.Seq (Regex.Chr "/"%char)
                                            (Regex.Star Regex.Dot))
                                 Regex.End)))).

(** isCdnProxy(win) *)
Definition isCdnProxy (win : Window) : bool :=
  Regex.test_anchored googleCdnProxyRegex (location_origin win).

(** ** The collaborators

    The functions this file imports.  [X] is the state they own and [E]
    the type of the exceptions they throw.  As the specification has it,
    nothing is fallible but the bucketing utility: the functions of
    src/experiments return normally or throw, and give the state they
    leave behind in both cases; the functions of traffic-experiments, mode
    and utils are total.  None of them changes what this file reads from
    the window and the element (the origin, the attributes rtc-config,
    useSameDomainRenderingUntilDeprecated and
    data-use-beta-a4a-implementation, the dataset key). *)

Inductive outcome (E A : Type) : Type :=
| Normal (a : A)
| Thrown (e : E).
Arguments Normal {E A} a.
Arguments Thrown {E A} e.

Class Collaborators (X E : Type) : Type := {
  (** the constant of traffic-experiments *)
  MANUAL_EXPERIMENT_ID : string;
  (** extractUrlExperimentId(win, element) *)
  extractUrlExperimentId : Window -> Element -> X -> option string;
  (** addExperimentIdToElement(experimentId, element) *)
  addExperimentIdToElement : string -> Element -> X -> X;
  (** supportsNativeCrypto(win) *)
  supportsNativeCrypto : Window -> X -> bool;
  (** getMode(win) *)
  getMode : Window -> X -> Mode;
  (** getExperimentBranch(win, experimentName) *)
  getExperimentBranch : Window -> string -> X -> outcome E (option string) * X;
  (** forceExperimentBranch(win, experimentName, branchId) *)
  forceExperimentBranch : Window -> string -> string -> X -> outcome E unit * X;
  (** randomlySelectUnsetExperiments(win, experimentInfoMap), for the map
      with the single entry
      [experimentName: {isTrafficEligible: () => true, branches}] *)
  randomlySelectUnsetExperiments :
    Window -> string -> option (list string) -> X -> outcome E unit * X;
}.

(** The calls that leave the file, as the history records them. *)
Inductive Call : Type :=
| CallRandomlySelectUnsetExperiments
    (experimentName : string) (branches : option (list string))
| CallGetExperimentBranch (experimentName : string)
| CallAddExperimentIdToElement (experimentId : string)
| CallForceExperimentBranch (experimentName branchId : string)
| CallConsoleLog (logged : gmap string bool).

(** A call together with the exception it threw, if any. *)
Record Event (E : Type) : Type := {
  call : Call;
  thrown : option E;
}.
Arguments Build_Event {E} call thrown.
Arguments call {E} _.
Arguments thrown {E} _.

(** The state of a run: the field of the singleton, the state of the
    collaborators and the history of calls. *)
Record State (X E : Type) : Type := {
  activeExperiments_ : gmap string bool;
  world : X;
  history : list (Event E);
}.
Arguments Build_State {X E} activeExperiments_ world history.
Arguments activeExperiments_ {X E} _.
Arguments world {X E} _.
Arguments history {X E} _.

(** ** The monad of methods *)

Definition M (X E A : Type) : Type := State X E -> outcome E A * State X E.

Definition ret {X E A} (a : A) : M X E A := fun st => (Normal a, st).

Definition bind {X E A B} (m : M X E A) (k : A -> M X E B) : M X E B :=
  fun st =>
    match m st with
    | (Normal a, st') => k a st'
    | (Thrown e, st') => (Thrown e, st')
    end.

Declare Scope method_scope.
Delimit Scope method_scope with method.
Notation "x <- m ;; k" := (bind m (fun x => k))
  (at level 100, m at next level, right associativity) : method_scope.
Notation "m ;;; k" := (bind m (fun _ => k))
  (at level 100, right associativity) : method_scope.

(** Reading the state. *)
Definition gets {X E A} (f : State X E -> A) : M X E A :=
  fun st => (Normal (f st), st).

(** [array.forEach(callback)]: the callback runs on every element in
    order and what it returns is dropped. *)
Fixpoint forEach {X E A B} (callback : A -> M X E B) (array : list A)
  : M X E unit :=
  match array with
  | [] => ret tt
  | a :: array' => bind (callback a) (fun _ => forEach callback array')
  end.

Definition result {X E A} (r : outcome E A * State X E) : outcome E A := fst r.
Definition final {X E A} (r : outcome E A * State X E) : State X E := snd r.

(** ** The class DoubleclickA4aEligibility *)

(** An entry of the array [experiments] of selectA4aExperiments.  A
    property the literal leaves out reads as undefined ([None]). *)
Record Experiment : Type := {
  forceExperimentId : option string;
  experimentBranchIds : option (list string);
  experimentName : string;
  diversionCriteria : unit -> bool;
}.

(** The object URL_EXPERIMENT_MAPPING, of type [Object<string,?string>];
    [manual] is MANUAL_EXPERIMENT_ID and [None] is null. *)
Definition URL_EXPERIMENT_MAPPING (manual : string)
  : gmap string (option string) :=
  list_to_map
    [ ("-1", Some manual);
      ("0", None);
      (* Holdback *)
      ("1", Some DOUBLECLICK_EXPERIMENT_FEATURE.HOLDBACK_EXTERNAL_CONTROL);
      ("2", Some DOUBLECLICK_EXPERIMENT_FEATURE.HOLDBACK_EXTERNAL);
      (* Delay Request *)
      ("3", Some DOUBLECLICK_EXPERIMENT_FEATURE.DELAYED_REQUEST_CONTROL);
      ("4", Some DOUBLECLICK_EXPERIMENT_FEATURE.DELAYED_REQUEST);
      (* Identity *)
      ("5", Some DOUBLECLICK_EXPERIMENT_FEATURE.IDENTITY_CONTROL);
      ("6", Some DOUBLECLICK_EXPERIMENT_FEATURE.IDENTITY_EXPERIMENT);
      (* SRA *)
      ("7", Some DOUBLECLICK_EXPERIMENT_FEATURE.SRA_CONTROL);
      ("8", Some DOUBLECLICK_EXPERIMENT_FEATURE.SRA);
      (* AMP Cache extension injection *)
      ("9",
       Some DOUBLECLICK_EXPERIMENT_FEATURE.CACHE_EXTENSION_INJECTION_CONTROL);
      ("10",
       Some DOUBLECLICK_EXPERIMENT_FEATURE.CACHE_EXTENSION_INJECTION_EXP) ].

(** [object[key]] on an [Object<string,?string>]: a property the object
    lacks reads as undefined. *)
Definition property (object : gmap string (option string)) (key : string)
  : option string :=
  default None (object !! key).

(** The test shared by selectA4aExperiments and shouldUseFastFetch:
    [!((useRemoteHtml && !element.getAttribute('rtc-config')) ||
       'useSameDomainRenderingUntilDeprecated' in element.dataset ||
       element.hasAttribute('useSameDomainRenderingUntilDeprecated'))] *)
Definition isFastFetchEligible (element : Element) (useRemoteHtml : bool)
  : bool :=
  negb ((useRemoteHtml && negb (Js.truthy (getAttribute element "rtc-config")))
        || in_dataset "useSameDomainRenderingUntilDeprecated" element
        || hasAttribute element "useSameDomainRenderingUntilDeprecated").

(** The property key an expression used as a key converts to; [None] is
    undefined. *)
Definition property_key (k : option string) : string :=
  match k with Some s => s | None => "undefined" end.

Section Eligibility.

Context {X E : Type} `{C : Collaborators X E}.

Local Open Scope method_scope.

Local Abbreviation Method := (M X E).

(** *** Calls to the collaborators *)

Definition log (c : Call) (t : option E) (st : State X E) (x : X)
  : State X E :=
  {| activeExperiments_ := activeExperiments_ st;
     world := x;
     history := history st ++ [Build_Event c t] |}.

(** A call to a function that may throw. *)
Definition invoke {A} (c : Call) (f : X -> outcome E A * X) : Method A :=
  fun st =>
    match f (world st) with
    | (Normal a, x) => (Normal a, log c None st x)
    | (Thrown e, x) => (Thrown e, log c (Some e) st x)
    end.

(** A call to a total function that changes the state of the
    collaborators. *)
Definition perform (c : Call) (f : X -> X) : Method unit :=
  fun st => (Normal tt, log c None st (f (world st))).

Definition callRandomlySelectUnsetExperiments (win : Window)
    (name : string) (branches : option (list string)) : Method unit :=
  invoke (CallRandomlySelectUnsetExperiments name branches)
         (randomlySelectUnsetExperiments win name branches).

Definition callGetExperimentBranch (win : Window) (name : string)
  : Method (option string) :=
  invoke (CallGetExperimentBranch name) (getExperimentBranch win name).

Definition callForceExperimentBranch (win : Window) (name id : string)
  : Method unit :=
  invoke (CallForceExperimentBranch name id) (forceExperimentBranch win name id).

Definition callAddExperimentIdToElement (id : string) (element : Element)
  : Method unit :=
  perform (CallAddExperimentIdToElement id) (addExperimentIdToElement id element).

(** [console.log(this.activeExperiments_)] *)
Definition consoleLogActiveExperiments : Method unit :=
  fun st => (Normal tt,
             log (CallConsoleLog (activeExperiments_ st)) None st (world st)).

(** [this.activeExperiments_[experimentId] = true] *)
Definition setActive (experimentId : string) : Method unit :=
  fun st =>
    (Normal tt,
     {| activeExperiments_ := <[experimentId := true]> (activeExperiments_ st);
        world := world st;
        history := history st |}).

(** *** Methods *)

(** [new DoubleclickA4aEligibility()], in a world [x]. *)
Definition constructor (x : X) : State X E :=
  {| activeExperiments_ := ∅; world := x; history := [] |}.

Definition maybeSelectExperiment (win : Window) (element : Element)
    (selectionBranches : option (list string)) (experimentName : string)
  : Method (option string) :=
  callRandomlySelectUnsetExperiments win experimentName selectionBranches ;;;
  callGetExperimentBranch win experimentName.

(** The three statements run on a truthy experiment id, under the
    experiment name [name]. *)
Definition forceAndRecord (win : Window) (element : Element)
    (name : string) (experimentId : string) : Method unit :=
  callAddExperimentIdToElement experimentId element ;;;
  callForceExperimentBranch win name experimentId ;;;
  setActive experimentId.

(** [if (experimentId) { ... }] *)
Definition whenTruthy (experimentId : option string)
    (body : string -> Method unit) : Method unit :=
  match experimentId with
  | Some id => if Js.truthy (Some id) then body id else ret tt
  | None => ret tt
  end.

Definition unconditionedSelection_ (win : Window) (element : Element)
  : Method Js.value :=
  experimentId <- maybeSelectExperiment win element
      (Some [DOUBLECLICK_UNCONDITIONED_EXPERIMENTS.FF_CANONICAL_CTL;
             DOUBLECLICK_UNCONDITIONED_EXPERIMENTS.FF_CANONICAL_EXP])
      DOUBLECLICK_UNCONDITIONED_EXPERIMENT_NAME ;;
  whenTruthy experimentId
    (forceAndRecord win element DOUBLECLICK_UNCONDITIONED_EXPERIMENT_NAME) ;;;
  ret Js.Undefined.

(** The array [experiments], from the five values computed before it. *)
Definition experiments (urlExperimentId : option string)
    (isFastFetchEligible isCdnProxy isDevMode hasBetaAttribute : bool)
  : list Experiment :=
  [ (* manual experiment *)
    {| forceExperimentId := Some MANUAL_EXPERIMENT_ID;
       experimentBranchIds := None;
       experimentName := DFP_CANONICAL_FF_EXPERIMENT_NAME;
       diversionCriteria := fun _ =>
         isFastFetchEligible && negb isCdnProxy
         && Js.loose_eq_number urlExperimentId (-1) && isDevMode |};
    (* canonical fast fetch experiment *)
    {| forceExperimentId := None;
       experimentBranchIds :=
         Some [DOUBLECLICK_EXPERIMENT_FEATURE.CANONICAL_CONTROL;
               DOUBLECLICK_EXPERIMENT_FEATURE.CANONICAL_EXPERIMENT];
       experimentName := DFP_CANONICAL_FF_EXPERIMENT_NAME;
       diversionCriteria := fun _ =>
         isFastFetchEligible && negb isCdnProxy
         && (negb (Js.loose_eq_number urlExperimentId (-1))
             || negb isDevMode) |};
    (* holdback internal experiment *)
    {| forceExperimentId := None;
       experimentBranchIds :=
         Some [DOUBLECLICK_EXPERIMENT_FEATURE.HOLDBACK_INTERNAL_CONTROL;
               DOUBLECLICK_EXPERIMENT_FEATURE.HOLDBACK_INTERNAL];
       experimentName := DOUBLECLICK_A4A_EXPERIMENT_NAME;
       diversionCriteria := fun _ =>
         isFastFetchEligible && isCdnProxy
         && Js.loose_eq_undefined urlExperimentId && negb hasBetaAttribute |};
    (* URL experiment selection *)
    {| forceExperimentId :=
         match urlExperimentId with
         | Some u =>
             if Js.truthy (Some u)
             then property (URL_EXPERIMENT_MAPPING MANUAL_EXPERIMENT_ID) u
             else None
         | None => None
         end;
       experimentBranchIds := None;
       experimentName := DOUBLECLICK_A4A_EXPERIMENT_NAME;
       diversionCriteria := fun _ =>
         isFastFetchEligible && isCdnProxy
         && negb (Js.loose_eq_undefined urlExperimentId)
         && negb hasBetaAttribute |};
    (* beta experiment selection *)
    {| forceExperimentId := Some BETA_EXPERIMENT_ID;
       experimentBranchIds := None;
       experimentName := DOUBLECLICK_A4A_EXPERIMENT_NAME;
       diversionCriteria := fun _ =>
         isFastFetchEligible && isCdnProxy && hasBetaAttribute |} ].

(** [experiment.forceExperimentId || this.maybeSelectExperiment(...)]:
    the right operand runs only when the left one is falsy. *)
Definition chooseExperimentId (win : Window) (element : Element)
    (experiment : Experiment) : Method (option string) :=
  if Js.truthy (forceExperimentId experiment)
  then ret (forceExperimentId experiment)
  else maybeSelectExperiment win element
         (experimentBranchIds experiment) (experimentName experiment).

(** The callback of [experiments.forEach]. *)
Definition selectionCallback (win : Window) (element : Element)
    (experiment : Experiment) : Method Js.value :=
  (if diversionCriteria experiment tt
   then
     experimentId <- chooseExperimentId win element experiment ;;
     whenTruthy experimentId
       (forceAndRecord win element DOUBLECLICK_A4A_EXPERIMENT_NAME)
   else ret tt) ;;;
  ret Js.Undefined.

(** The five values selectA4aExperiments computes after the unconditioned
    selection, read in the state [st]. *)
Definition conditionedExperiments (win : Window) (element : Element)
    (useRemoteHtml : bool) (st : State X E) : list Experiment :=
  let urlExperimentId := extractUrlExperimentId win element (world st) in
  let isFastFetchEligible := isFastFetchEligible element useRemoteHtml in
  let isCdnProxy := isCdnProxy win in
  let isDevMode :=
    localDev (getMode win (world st)) || test (getMode win (world st)) in
  let hasBetaAttribute := hasAttribute element BETA_ATTRIBUTE in
  experiments urlExperimentId isFastFetchEligible isCdnProxy isDevMode
    hasBetaAttribute.

(** selectA4aExperiments after its first statement: the five values, the
    array and the loop over it. *)
Definition conditionedSelection (win : Window) (element : Element)
    (useRemoteHtml : bool) : Method Js.value :=
  experiments <- gets (conditionedExperiments win element useRemoteHtml) ;;
  forEach (selectionCallback win element) experiments ;;;
  ret Js.Undefined.

Definition selectA4aExperiments (win : Window) (element : Element)
    (useRemoteHtml : bool) : Method Js.value :=
  unconditionedSelection_ win element ;;;
  conditionedSelection win element useRemoteHtml.

(** supportsCrypto(win), the wrapper around supportsNativeCrypto. *)
Definition supportsCrypto (win : Window) (x : X) : bool :=
  supportsNativeCrypto win x.

(** [Object.keys(this.activeExperiments_)]; the callback run on the keys
    changes nothing, so their order is immaterial. *)
Definition activeExperimentKeys (st : State X E) : list string :=
  (map_to_list (activeExperiments_ st)).*1.

(** The predicate stored in [fastFetchPredicates]. *)
Definition unconditionedPredicate (win : Window)
    (isFastFetchEligible : bool) (urlExperimentId : option string)
  : Method bool :=
  gets (fun st =>
    isFastFetchEligible && negb (isCdnProxy win)
    && negb (Js.loose_eq_number urlExperimentId (-1)
             && (localDev (getMode win (world st))
                 || test (getMode win (world st))))
    && negb (supportsCrypto win (world st))).

(** The callback of [Object.keys(this.activeExperiments_).forEach]: its
    [return false] leaves the callback, not shouldUseFastFetch. *)
Definition ineligibilityCallback
    (fastFetchIneligibleExperiments : list (option string))
    (fastFetchPredicates : gmap string (Method bool))
    (experimentId : string) : Method Js.value :=
  failed <-
    (if bool_decide (Some experimentId ∈ fastFetchIneligibleExperiments)
     then ret true
     else match fastFetchPredicates !! experimentId with
          | Some predicate => holds <- predicate ;; ret (negb holds)
          | None => ret false
          end) ;;
  if (failed : bool) then ret (Js.Boolean false) else ret Js.Undefined.

Definition shouldUseFastFetch (win : Window) (element : Element)
    (useRemoteHtml : bool) : Method Js.value :=
  let isFastFetchEligible := isFastFetchEligible element useRemoteHtml in
  let fastFetchIneligibleExperiments : list (option string) :=
    [ Some DOUBLECLICK_EXPERIMENT_FEATURE.HOLDBACK_EXTERNAL;
      Some DOUBLECLICK_EXPERIMENT_FEATURE.HOLDBACK_INTERNAL;
      Some DOUBLECLICK_EXPERIMENT_FEATURE.CANONICAL_CONTROL;
      DOUBLECLICK_EXPERIMENT_FEATURE.UNCONDITIONED_FF_CANONICAL_CTL ] in
  urlExperimentId <- gets (fun st => extractUrlExperimentId win element (world st)) ;;
  let fastFetchPredicates : gmap string (Method bool) :=
    {[ property_key
         DOUBLECLICK_EXPERIMENT_FEATURE.UNCONDITIONED_FF_CANONICAL_EXP :=
         unconditionedPredicate win isFastFetchEligible urlExperimentId ]} in
  keys <- gets activeExperimentKeys ;;
  forEach (ineligibilityCallback fastFetchIneligibleExperiments
             fastFetchPredicates) keys ;;;
  consoleLogActiveExperiments ;;;
  ret (Js.Boolean (isFastFetchEligible && isCdnProxy win)).

Definition isA4aEnabled (win : Window) (element : Element)
    (useRemoteHtml : bool) : Method Js.value :=
  selectA4aExperiments win element useRemoteHtml ;;;
  shouldUseFastFetch win element useRemoteHtml.

(** The exported function: the state threaded through it is that of the
    module-level [singleton]. *)
Definition doubleclickIsA4AEnabled (win : Window) (element : Element)
    (useRemoteHtml : bool) : Method Js.value :=
  isA4aEnabled win element useRemoteHtml.

(** The exported function experimentFeatureEnabled; [==] on a [?string]
    and a string holds of equal strings only. *)
Definition experimentFeatureEnabled (win : Window) (feature : string)
    (opt_experimentName : option string) : Method Js.value :=
  let experimentName :=
    default DOUBLECLICK_A4A_EXPERIMENT_NAME
      (Js.or_else opt_experimentName (Some DOUBLECLICK_A4A_EXPERIMENT_NAME)) in
  branch <- callGetExperimentBranch win experimentName ;;
  ret (Js.Boolean (bool_decide (branch = Some feature))).

(** A sequence of calls to doubleclickIsA4AEnabled on the singleton; a
    caller that catches an exception goes on with the state left. *)
Definition pageViews (views : list (Window * Element * bool))
    (st : State X E) : State X E :=
  fold_left (fun st '(win, element, useRemoteHtml) =>
               final (doubleclickIsA4AEnabled win element useRemoteHtml st))
            views st.

End Eligibility.

(** ** A small instance of the collaborators

    Used to run the methods on concrete pages, with a bucketing that is
    determined by the world: experiment branches are kept per experiment
    name, a branch already set is kept, an unset experiment gets the
    branch at position [pick] (none when there is no such position), and
    selecting among undefined branches throws. *)

Module Stub.

Record World : Type := {
  experimentBranches : gmap string (option string);
  experimentIdsOfElement : list string;
  urlExperimentParameter : option string;
  mode : Mode;
  nativeCrypto : bool;
  pick : nat;
}.

Definition setBranch (name : string) (branch : option string) (x : World)
  : World :=
  {| experimentBranches := <[name := branch]> (experimentBranches x);
     experimentIdsOfElement := experimentIdsOfElement x;
     urlExperimentParameter := urlExperimentParameter x;
     mode := mode x;
     nativeCrypto := nativeCrypto x;
     pick := pick x |}.

Definition addId (id : string) (x : World) : World :=
  {| experimentBranches := experimentBranches x;
     experimentIdsOfElement := experimentIdsOfElement x ++ [id];
     urlExperimentParameter := urlExperimentParameter x;
     mode := mode x;
     nativeCrypto := nativeCrypto x;
     pick := pick x |}.

Definition randomlySelect (name : string) (branches : option (list string))
    (x : World) : outcome string unit * World :=
  match experimentBranches x !! name with
  | Some _ => (Normal tt, x)
  | None =>
      match branches with
      | Some bs => (Normal tt, setBranch name (bs !! pick x) x)
      | None => (Thrown "TypeError", x)
      end
  end.

#[global] Instance collaborators : Collaborators World string := {|
  MANUAL_EXPERIMENT_ID := "117152632";
  extractUrlExperimentId := fun _ _ x => urlExperimentParameter x;
  addExperimentIdToElement := fun id _ x => addId id x;
  supportsNativeCrypto := fun _ x => nativeCrypto x;
  getMode := fun _ x => mode x;
  getExperimentBranch := fun _ name x =>
    (Normal (default None (experimentBranches x !! name)), x);
  forceExperimentBranch := fun _ name id x =>
    (Normal tt, setBranch name (Some id) x);
  randomlySelectUnsetExperiments := fun _ name branches x =>
    randomlySelect name branches x;
|}.

(** A page view in production mode, with the parameter [exp] of the URL
    holding [url]. *)
Definition world (url : option string) (pick : nat) : World :=
  {| experimentBranches := ∅;
     experimentIdsOfElement := [];
     urlExperimentParameter := url;
     mode := {| localDev := false; test := false |};
     nativeCrypto := true;
     pick := pick |}.

Definition cdn : Window :=
  {| location_origin := "https://cdn.ampproject.org" |}.

Definition publisher : Window :=
  {| location_origin := "https://www.example.com" |}.

(** [<amp-ad type="doubleclick">] with the attributes [attrs]. *)
Definition ampAd (attrs : list (string * string)) : Element :=
  {| attributes := list_to_map attrs; dataset := ∅ |}.

End Stub.

(** ** How a run changes the state *)

Section RunProperties.

Context {X E : Type} `{C : Collaborators X E}.

Local Abbreviation Method := (M X E).

(** [forcedIn new k]: within the calls [new], the id [k] was added to the
    element and then forced as a branch, both calls returning normally. *)
Definition forcedIn (new : list (Event E)) (k : string) : Prop :=
  ∃ name before after,
    new = before
          ++ [Build_Event (CallAddExperimentIdToElement k) None;
              Build_Event (CallForceExperimentBranch name k) None]
          ++ after.

(** [evolves st st']: from [st] to [st'] the history is extended by the
    calls [new], no key of the flag map is lost, and an entry of the flag
    map is either an old one or holds true for an id forced in [new]. *)
Definition evolves (st st' : State X E) : Prop :=
  ∃ new,
    history st' = history st ++ new
    ∧ (∀ k, is_Some (activeExperiments_ st !! k) →
            is_Some (activeExperiments_ st' !! k))
    ∧ (∀ k v, activeExperiments_ st' !! k = Some v →
              activeExperiments_ st !! k = Some v
              ∨ (v = true ∧ forcedIn new k)).

Definition evolving {A} (m : Method A) : Prop :=
  ∀ st, evolves st (final (m st)).

(** A computation that only reads the state. *)
Definition reading {A} (m : Method A) : Prop :=
  ∀ st, ∃ a, m st = (Normal a, st).

(** [quiet new]: no call of [new] threw. *)
Definition quiet (new : list (Event E)) : Prop :=
  Forall (fun ev => thrown ev = None) new.

(** [returning post m]: a run of [m] either returns a value satisfying
    [post] after calls that all returned, or ends with the exception its
    last call threw, every earlier call having returned. *)
Definition returning {A} (post : A → Prop) (m : Method A) : Prop :=
  ∀ st, ∃ new,
    history (final (m st)) = history st ++ new
    ∧ match result (m st) with
      | Normal a => post a ∧ quiet new
      | Thrown e =>
          ∃ c before, new = before ++ [Build_Event c (Some e)] ∧ quiet before
      end.

(** The invariant of the flag map: every entry holds true, for an id that
    was added to the element and forced as a branch. *)
Definition flagsAreForced (st : State X E) : Prop :=
  ∀ k v, activeExperiments_ st !! k = Some v →
         v = true ∧ forcedIn (history st) k.

End RunProperties.

(** ** The reading of the specification *)

Section Specification.

Context {X E : Type} `{C : Collaborators X E}.

Local Open Scope method_scope.

(** First match wins, as the specification words the conditioned list:
    the entries are tried in order and the selection stops at the first
    one whose condition holds. *)
Fixpoint firstMatchWins (win : Window) (element : Element)
    (experiments : list Experiment) : M X E unit :=
  match experiments with
  | [] => ret tt
  | experiment :: experiments' =>
      if diversionCriteria experiment tt
      then selectionCallback win element experiment ;;; ret tt
      else firstMatchWins win element experiments'
  end.

End Specification.

(** Fast Fetch eligibility of an element as the specification words it:
    not (useRemoteHtml is set and the element lacks an rtc-config
    attribute), and useSameDomainRenderingUntilDeprecated neither in the
    dataset nor among the attributes. *)
Definition eligibleByPresence (element : Element) (useRemoteHtml : bool)
  : bool :=
  negb (useRemoteHtml && negb (hasAttribute element "rtc-config"))
  && negb (in_dataset "useSameDomainRenderingUntilDeprecated" element)
  && negb (hasAttribute element "useSameDomainRenderingUntilDeprecated").

(** The same with the test the code makes on rtc-config: the attribute is
    missing or holds the empty string. *)
Definition eligibleByValue (element : Element) (useRemoteHtml : bool) : Prop :=
  ¬ (useRemoteHtml = true
     ∧ (getAttribute element "rtc-config" = None
        ∨ getAttribute element "rtc-config" = Some ""))
  ∧ dataset element !! "useSameDomainRenderingUntilDeprecated" = None
  ∧ attributes element !! "useSameDomainRenderingUntilDeprecated" = None.

(** ** The words a regular expression matches

    [Matches r w rest]: the expression [r] matches the word [w] when the
    input goes on with [rest] after it.  What follows matters to the
    assertion [End] only, which holds where the input stops. *)

Inductive Matches : Regex.t → string → string → Prop :=
| Matches_Eps rest : Matches Regex.Eps "" rest
| Matches_Class p c rest :
    p c = true → Matches (Regex.Class p) (String c "") rest
| Matches_Seq r1 r2 w1 w2 rest :
    Matches r1 w1 (w2 +:+ rest) → Matches r2 w2 rest →
    Matches (Regex.Seq r1 r2) (w1 +:+ w2) rest
| Matches_Alt_l r1 r2 w rest :
    Matches r1 w rest → Matches (Regex.Alt r1 r2) w rest
| Matches_Alt_r r1 r2 w rest :
    Matches r2 w rest → Matches (Regex.Alt r1 r2) w rest
| Matches_Star_nil r rest : Matches (Regex.Star r) "" rest
| Matches_Star_cons r w1 w2 rest :
    Matches r w1 (w2 +:+ rest) → Matches (Regex.Star r) w2 rest →
    Matches (Regex.Star r) (w1 +:+ w2) rest
| Matches_End : Matches Regex.End "" "".

(** The input stops here. *)
Definition atEnd (rest : string) : bool :=
  match rest with EmptyString => true | String _ _ => false end.

(** Every character of [s] satisfies [p]. *)
Fixpoint string_forallb (p : ascii → bool) (s : string) : bool :=
  match s with
  | EmptyString => true
  | String c s' => p c && string_forallb p s'
  end.

(** The class [a-zA-Z0-9_-] of the regular expression of isCdnProxy. *)
Definition isLabelCharacter (c : ascii) : bool :=
  let in_range (lo hi c : ascii) : bool :=
    (nat_of_ascii lo <=? nat_of_ascii c)%nat
    && (nat_of_ascii c <=? nat_of_ascii hi)%nat in
  (in_range "a" "z" c || in_range "A" "Z" c || in_range "0" "9" c
   || Ascii.eqb c "_" || Ascii.eqb c "-")%char.

(** The origins of the AMP CDN proxy: https, the host cdn.ampproject.org
    or one label of [a-zA-Z0-9_-] in front of it, and then nothing or
    something that starts with a slash. *)
Definition isCdnProxyOrigin (origin : string) : Prop :=
  ∃ sub tail,
    origin = "https://" +:+ sub +:+ "cdn.ampproject.org" +:+ tail
    ∧ (sub = ""
       ∨ ∃ label, sub = label +:+ "."
                  ∧ label ≠ ""
                  ∧ string_forallb isLabelCharacter label = true)
    ∧ (tail = "" ∨ ∃ path, tail = "/" +:+ path).

(** ** What the calls of a run may be *)

(** Ids are added to the element and forced only when truthy, and forced
    under one of two experiment names. *)
Definition forcesTruthyId (c : Call) : Prop :=
  match c with
  | CallForceExperimentBranch name id =>
      (name = DOUBLECLICK_UNCONDITIONED_EXPERIMENT_NAME
       ∨ name = DOUBLECLICK_A4A_EXPERIMENT_NAME)
      ∧ id ≠ ""
  | CallAddExperimentIdToElement id => id ≠ ""
  | _ => True
  end.

(** The bucketing utility is asked about three experiments only, each with
    its own branches or, for the last two, with undefined branches. *)
Definition bucketsKnownExperiment (c : Call) : Prop :=
  match c with
  | CallRandomlySelectUnsetExperiments name branches =>
      (name = DOUBLECLICK_UNCONDITIONED_EXPERIMENT_NAME
       ∧ branches = Some ["21061145"; "21061146"])
      ∨ (name = DFP_CANONICAL_FF_EXPERIMENT_NAME
         ∧ (branches = Some ["21060932"; "21060933"] ∨ branches = None))
      ∨ (name = DOUBLECLICK_A4A_EXPERIMENT_NAME
         ∧ (branches = Some ["2092613"; "2092614"] ∨ branches = None))
  | CallGetExperimentBranch name =>
      name = DOUBLECLICK_UNCONDITIONED_EXPERIMENT_NAME
      ∨ name = DFP_CANONICAL_FF_EXPERIMENT_NAME
      ∨ name = DOUBLECLICK_A4A_EXPERIMENT_NAME
  | _ => True
  end.

Section FurtherRunProperties.

Context {X E : Type}.

(** [emitting P m]: every call a run of [m] makes satisfies [P]. *)
Definition emitting {A} (P : Call → Prop) (m : M X E A) : Prop :=
  ∀ st, ∃ new,
    history (final (m st)) = history st ++ new
    ∧ Forall (fun ev => P (call ev)) new.

(** [recording n m]: a run of [m] sets at most [n] ids in the flag map
    and changes it in no other way. *)
Definition recording {A} (n : nat) (m : M X E A) : Prop :=
  ∀ st, ∃ ids,
    (List.length ids <= n)%nat
    ∧ activeExperiments_ (final (m st))
      = foldl (fun flags id => <[id := true]> flags)
              (activeExperiments_ st) ids.

End FurtherRunProperties.
(** * Properties *)

(** ** The regular expression of isCdnProxy on some origins *)

Example isCdnProxy_cdn :
  isCdnProxy {| location_origin := "https://cdn.ampproject.org" |} = true.
Proof. vm_compute. reflexivity. Qed.

Example isCdnProxy_subdomain :
  isCdnProxy {| location_origin := "https://www-example-com.cdn.ampproject.org" |}
  = true.
Proof. vm_compute. reflexivity. Qed.

Example isCdnProxy_publisher :
  isCdnProxy {| location_origin := "https://www.example.com" |} = false.
Proof. vm_compute. reflexivity. Qed.

Example isCdnProxy_suffix :
  isCdnProxy {| location_origin := "https://cdn.ampproject.org.example.com" |}
  = false.
Proof. vm_compute. reflexivity. Qed.

Example isCdnProxy_http :
  isCdnProxy {| location_origin := "http://cdn.ampproject.org" |} = false.
Proof. vm_compute. reflexivity. Qed.

(** ** Loose equality with -1 on some URL experiment ids *)

Example loose_eq_number_manual : Js.loose_eq_number (Some "-1") (-1) = true.
Proof. reflexivity. Qed.

Example loose_eq_number_holdback : Js.loose_eq_number (Some "2") (-1) = false.
Proof. reflexivity. Qed.

Example loose_eq_number_null : Js.loose_eq_number None (-1) = false.
Proof. reflexivity. Qed.

(** ** Lemmas on runs *)

Section Runs.

Context {X E : Type} `{C : Collaborators X E}.

Local Open Scope method_scope.

Local Abbreviation Method := (M X E).

Lemma forcedIn_app_l (new1 new2 : list (Event E)) k :
  forcedIn new1 k → forcedIn (new1 ++ new2) k.
Proof.
  intros (name & before & after & ->).
  exists name, before, (after ++ new2).
  by rewrite <- !app_assoc.
Qed.

Lemma forcedIn_app_r (new1 new2 : list (Event E)) k :
  forcedIn new2 k → forcedIn (new1 ++ new2) k.
Proof.
  intros (name & before & after & ->).
  exists name, (new1 ++ before), after.
  by rewrite <- !app_assoc.
Qed.

Lemma evolves_refl (st : State X E) : evolves st st.
Proof.
  exists []. rewrite app_nil_r. split; [done|]. split; [done|].
  intros k v Hk. by left.
Qed.

Lemma evolves_trans (st1 st2 st3 : State X E) :
  evolves st1 st2 → evolves st2 st3 → evolves st1 st3.
Proof.
  intros (new1 & Hh1 & Hk1 & Hv1) (new2 & Hh2 & Hk2 & Hv2).
  exists (new1 ++ new2). split; [|split].
  - by rewrite Hh2, Hh1, app_assoc.
  - intros k Hk. by apply Hk2, Hk1.
  - intros k v Hv. destruct (Hv2 k v Hv) as [Hold | [-> Hf]].
    + destruct (Hv1 k v Hold) as [Hold' | [-> Hf]]; [by left|].
      right. split; [done|]. by apply forcedIn_app_l.
    + right. split; [done|]. by apply forcedIn_app_r.
Qed.

(** A step that leaves the flag map alone. *)
Lemma evolves_same_map (st st' : State X E) new :
  activeExperiments_ st' = activeExperiments_ st →
  history st' = history st ++ new →
  evolves st st'.
Proof.
  intros Hm Hh. exists new. rewrite Hm. split; [done|]. split; [done|].
  intros k v Hv. by left.
Qed.

Lemma evolving_ret {A} (a : A) : evolving (ret a : Method A).
Proof. intros st. apply evolves_refl. Qed.

Lemma evolving_gets {A} (f : State X E → A) : evolving (gets f).
Proof. intros st. apply evolves_refl. Qed.

Lemma evolving_bind {A B} (m : Method A) (k : A → Method B) :
  evolving m → (∀ a, evolving (k a)) → evolving (bind m k).
Proof.
  intros Hm Hk st. unfold bind. specialize (Hm st).
  destruct (m st) as [[a|e] st1]; simpl in *; [|done].
  eapply evolves_trans; [exact Hm|]. apply Hk.
Qed.

Lemma evolving_forEach {A B} (callback : A → Method B) (array : list A) :
  (∀ a, evolving (callback a)) → evolving (forEach callback array).
Proof.
  intros Hc. induction array as [|a array IH]; simpl.
  - apply evolving_ret.
  - apply evolving_bind; [apply Hc | intros _; exact IH].
Qed.

Lemma evolving_invoke {A} (c : Call) (f : X → outcome E A * X) :
  evolving (invoke c f).
Proof.
  intros st. unfold invoke.
  destruct (f (world st)) as [[a|e] x]; simpl;
    by eapply evolves_same_map.
Qed.

Lemma evolving_perform (c : Call) (f : X → X) : evolving (perform c f : Method unit).
Proof. intros st. by eapply evolves_same_map. Qed.

Lemma evolving_consoleLog :
  evolving (consoleLogActiveExperiments : Method unit).
Proof. intros st. by eapply evolves_same_map. Qed.

Lemma reading_ret {A} (a : A) : reading (ret a : Method A).
Proof. intros st. by exists a. Qed.

Lemma reading_gets {A} (f : State X E → A) : reading (gets f).
Proof. intros st. by exists (f st). Qed.

Lemma reading_bind {A B} (m : Method A) (k : A → Method B) :
  reading m → (∀ a, reading (k a)) → reading (bind m k).
Proof.
  intros Hm Hk st. unfold bind. destruct (Hm st) as [a ->]. apply Hk.
Qed.

Lemma reading_forEach {A B} (callback : A → Method B) (array : list A) :
  (∀ a, reading (callback a)) → ∀ st, forEach callback array st = (Normal tt, st).
Proof.
  intros Hc. induction array as [|a array IH]; intros st; simpl; [done|].
  unfold bind. destruct (Hc a st) as [b ->]. apply IH.
Qed.

Lemma reading_evolving {A} (m : Method A) : reading m → evolving m.
Proof.
  intros Hm st. destruct (Hm st) as [a ->]. apply evolves_refl.
Qed.


(** ** The methods, one by one *)

(** What forceAndRecord does: two calls, and the flag set when the second
    returns. *)
Lemma forceAndRecord_run win element name id (st : State X E) :
  forceAndRecord win element name id st =
  let x1 := addExperimentIdToElement id element (world st) in
  let added t :=
    history st ++ [Build_Event (CallAddExperimentIdToElement id) None;
                   Build_Event (CallForceExperimentBranch name id) t] in
  match forceExperimentBranch win name id x1 with
  | (Normal _, x2) =>
      (Normal tt,
       {| activeExperiments_ := <[id := true]> (activeExperiments_ st);
          world := x2;
          history := added None |})
  | (Thrown e, x2) =>
      (Thrown e,
       {| activeExperiments_ := activeExperiments_ st;
          world := x2;
          history := added (Some e) |})
  end.
Proof.
  unfold forceAndRecord, bind, callAddExperimentIdToElement, perform,
    callForceExperimentBranch, invoke, setActive, log. simpl.
  destruct (forceExperimentBranch win name id _) as [[[]|e] x2]; simpl;
    by rewrite <- app_assoc.
Qed.

Lemma evolving_forceAndRecord win element name id :
  evolving (forceAndRecord win element name id).
Proof.
  intros st. rewrite forceAndRecord_run. simpl.
  destruct (forceExperimentBranch win name id _) as [[[]|e] x2]; simpl.
  - eexists. split; [reflexivity|]. simpl. split.
    + intros k Hk. destruct (decide (k = id)) as [->|Hne].
      * rewrite lookup_insert_eq. by eexists.
      * by rewrite lookup_insert_ne.
    + intros k v Hv. destruct (decide (k = id)) as [->|Hne].
      * rewrite lookup_insert_eq in Hv. injection Hv as <-.
        right. split; [done|]. by exists name, [], [].
      * rewrite lookup_insert_ne in Hv by done. by left.
  - by eapply evolves_same_map.
Qed.

Lemma evolving_whenTruthy experimentId (body : string → Method unit) :
  (∀ id, evolving (body id)) → evolving (whenTruthy experimentId body).
Proof.
  intros Hb. unfold whenTruthy. destruct experimentId as [id|].
  - destruct (Js.truthy (Some id)); [apply Hb | apply evolving_ret].
  - apply evolving_ret.
Qed.

Lemma evolving_maybeSelectExperiment win element branches name :
  evolving (maybeSelectExperiment win element branches name).
Proof.
  apply evolving_bind; [apply evolving_invoke|].
  intros _. apply evolving_invoke.
Qed.

Lemma evolving_unconditionedSelection_ win element :
  evolving (unconditionedSelection_ win element).
Proof.
  apply evolving_bind; [apply evolving_maybeSelectExperiment|].
  intros experimentId. apply evolving_bind; [|intros _; apply evolving_ret].
  apply evolving_whenTruthy. intros id. apply evolving_forceAndRecord.
Qed.

Lemma evolving_chooseExperimentId win element experiment :
  evolving (chooseExperimentId win element experiment).
Proof.
  unfold chooseExperimentId.
  destruct (Js.truthy _); [apply evolving_ret|].
  apply evolving_maybeSelectExperiment.
Qed.

Lemma evolving_selectionCallback win element experiment :
  evolving (selectionCallback win element experiment).
Proof.
  apply evolving_bind; [|intros _; apply evolving_ret].
  destruct (diversionCriteria experiment tt); [|apply evolving_ret].
  apply evolving_bind; [apply evolving_chooseExperimentId|].
  intros experimentId. apply evolving_whenTruthy.
  intros id. apply evolving_forceAndRecord.
Qed.

Lemma evolving_selectA4aExperiments win element useRemoteHtml :
  evolving (selectA4aExperiments win element useRemoteHtml).
Proof.
  apply evolving_bind; [apply evolving_unconditionedSelection_|].
  intros _. apply evolving_bind; [apply evolving_gets|].
  intros exps. apply evolving_bind; [|intros _; apply evolving_ret].
  apply evolving_forEach. intros experiment.
  apply evolving_selectionCallback.
Qed.

Lemma reading_ineligibilityCallback ineligible
    (predicates : gmap string (Method bool)) experimentId :
  (∀ k p, predicates !! k = Some p → reading p) →
  reading (ineligibilityCallback ineligible predicates experimentId).
Proof.
  intros Hp. apply reading_bind.
  - case_bool_decide; [apply reading_ret|].
    destruct (predicates !! experimentId) as [p|] eqn:Hl; [|apply reading_ret].
    apply reading_bind; [by eapply Hp|]. intros b. apply reading_ret.
  - intros []; apply reading_ret.
Qed.

(** shouldUseFastFetch in full: it returns the conjunction computed from
    the element and the origin, and leaves a line on the console. *)
Lemma shouldUseFastFetch_run win element useRemoteHtml (st : State X E) :
  shouldUseFastFetch win element useRemoteHtml st =
  (Normal (Js.Boolean (isFastFetchEligible element useRemoteHtml
                       && isCdnProxy win)),
   log (CallConsoleLog (activeExperiments_ st)) None st (world st)).
Proof.
  unfold shouldUseFastFetch, bind, gets. simpl.
  rewrite reading_forEach; [done|].
  intros experimentId. apply reading_ineligibilityCallback.
  intros k p [_ <-]%lookup_singleton_Some. apply reading_gets.
Qed.

Lemma evolving_shouldUseFastFetch win element useRemoteHtml :
  evolving (shouldUseFastFetch win element useRemoteHtml).
Proof.
  intros st. rewrite shouldUseFastFetch_run. by eapply evolves_same_map.
Qed.

Lemma evolving_doubleclickIsA4AEnabled win element useRemoteHtml :
  evolving (doubleclickIsA4AEnabled win element useRemoteHtml).
Proof.
  apply evolving_bind; [apply evolving_selectA4aExperiments|].
  intros _. apply evolving_shouldUseFastFetch.
Qed.

Lemma evolves_pageViews views (st : State X E) :
  evolves st (pageViews views st).
Proof.
  revert st. induction views as [|[[win element] useRemoteHtml] views IH];
    intros st; simpl.
  - apply evolves_refl.
  - eapply evolves_trans; [|apply IH].
    apply evolving_doubleclickIsA4AEnabled.
Qed.

(** ** The conditioned list *)

Lemma selectionCallback_skip win element experiment (st : State X E) :
  diversionCriteria experiment tt = false →
  selectionCallback win element experiment st = (Normal Js.Undefined, st).
Proof. intros Hc. unfold selectionCallback, bind. by rewrite Hc. Qed.

Lemma forEach_no_match win element experiments (st : State X E) :
  List.filter (fun e => diversionCriteria e tt) experiments = [] →
  forEach (selectionCallback win element) experiments st = (Normal tt, st).
Proof.
  induction experiments as [|experiment experiments IH]; simpl; [done|].
  destruct (diversionCriteria experiment tt) eqn:Hc; [done|].
  intros Hnone. unfold bind.
  rewrite selectionCallback_skip by done. by apply IH.
Qed.

Lemma forEach_firstMatchWins win element experiments (st : State X E) :
  (List.length (List.filter (fun e => diversionCriteria e tt) experiments)
   <= 1)%nat →
  forEach (selectionCallback win element) experiments st
  = firstMatchWins win element experiments st.
Proof.
  induction experiments as [|experiment experiments IH]; simpl; [done|].
  destruct (diversionCriteria experiment tt) eqn:Hc; simpl; intros Hone.
  - unfold bind.
    destruct (selectionCallback win element experiment st) as [[v|e] st1];
      [|done].
    apply forEach_no_match.
    destruct (List.filter _ experiments); [done | simpl in Hone; lia].
  - unfold bind. rewrite selectionCallback_skip by done. by apply IH.
Qed.

Lemma experiments_at_most_one urlExperimentId
    (eligible cdnProxy devMode betaAttribute : bool) :
  (List.length (List.filter (fun e => diversionCriteria e tt)
                  (experiments urlExperimentId eligible cdnProxy devMode
                     betaAttribute)) <= 1)%nat.
Proof.
  unfold experiments. simpl.
  destruct eligible, cdnProxy, devMode, betaAttribute,
    (Js.loose_eq_number urlExperimentId (-1)),
    (Js.loose_eq_undefined urlExperimentId); simpl; lia.
Qed.

(** C3.  Whatever the Fast Fetch eligibility, the CDN-proxy status, the
    URL experiment id, the dev mode and the beta attribute, at most one
    of the five entries of the conditioned list has a diversion criteria
    that holds; hence running the callback on every entry in order, as
    [experiments.forEach] does, is the same computation as stopping at the
    first entry whose criteria holds. *)
Theorem conditioned_list_first_match_wins
    (urlExperimentId : option string)
    (eligible cdnProxy devMode betaAttribute : bool)
    (win : Window) (element : Element) (st : State X E) :
  let conditioned :=
    experiments urlExperimentId eligible cdnProxy devMode betaAttribute in
  List.length conditioned = 5
  ∧ (List.length (List.filter (fun e => diversionCriteria e tt) conditioned)
     <= 1)%nat
  ∧ forEach (selectionCallback win element) conditioned st
    = firstMatchWins win element conditioned st.
Proof.
  intros conditioned. split; [done|]. split.
  - apply experiments_at_most_one.
  - apply forEach_firstMatchWins, experiments_at_most_one.
Qed.

(** ** Values returned and exceptions thrown *)

Lemma returning_ret {A} (post : A → Prop) (a : A) :
  post a → returning post (ret a : Method A).
Proof.
  intros Ha st. exists []. simpl. rewrite app_nil_r.
  split; [done|]. split; [done | constructor].
Qed.

Lemma returning_gets {A} (post : A → Prop) (f : State X E → A) :
  (∀ st, post (f st)) → returning post (gets f).
Proof.
  intros Hf st. exists []. simpl. rewrite app_nil_r.
  split; [done|]. split; [apply Hf | constructor].
Qed.

Lemma returning_weaken {A} (post post' : A → Prop) (m : Method A) :
  (∀ a, post a → post' a) → returning post m → returning post' m.
Proof.
  intros Himp Hm st. destruct (Hm st) as (new & Hh & Hr).
  exists new. split; [done|].
  destruct (result (m st)); [|done]. destruct Hr. split; auto.
Qed.

Lemma returning_bind {A B} (post : A → Prop) (post' : B → Prop)
    (m : Method A) (k : A → Method B) :
  returning post m → (∀ a, post a → returning post' (k a)) →
  returning post' (bind m k).
Proof.
  intros Hm Hk st. unfold bind.
  destruct (Hm st) as (new1 & Hh1 & Hr1).
  destruct (m st) as [[a|e] st1]; simpl in *.
  - destruct Hr1 as [Ha Hq1].
    destruct (Hk a Ha st1) as (new2 & Hh2 & Hr2).
    exists (new1 ++ new2). split; [by rewrite Hh2, Hh1, app_assoc|].
    destruct (result (k a st1)).
    + destruct Hr2 as [Hb Hq2]. split; [done|]. by apply Forall_app.
    + destruct Hr2 as (c & before & -> & Hq2).
      exists c, (new1 ++ before). split; [by rewrite app_assoc|].
      by apply Forall_app.
  - by exists new1.
Qed.

Lemma returning_forEach {A B} (callback : A → Method B) (array : list A) :
  (∀ a, returning (fun _ => True) (callback a)) →
  returning (fun _ => True) (forEach callback array).
Proof.
  intros Hc. induction array as [|a array IH]; simpl.
  - by apply returning_ret.
  - eapply returning_bind; [apply Hc | intros _ _; exact IH].
Qed.

Lemma returning_invoke {A} (c : Call) (f : X → outcome E A * X) :
  returning (fun _ => True) (invoke c f).
Proof.
  intros st. unfold invoke.
  destruct (f (world st)) as [[a|e] x]; simpl; eexists; (split; [done|]).
  - split; [done|]. by repeat constructor.
  - exists c, []. split; [done | constructor].
Qed.

Lemma returning_perform (c : Call) (f : X → X) :
  returning (fun _ => True) (perform c f : Method unit).
Proof.
  intros st. eexists. split; [done|]. simpl.
  split; [done|]. by repeat constructor.
Qed.

Lemma returning_consoleLog :
  returning (fun _ => True) (consoleLogActiveExperiments : Method unit).
Proof.
  intros st. eexists. split; [done|]. simpl.
  split; [done|]. by repeat constructor.
Qed.

Lemma returning_setActive experimentId :
  returning (fun _ => True) (setActive experimentId : Method unit).
Proof.
  intros st. exists []. simpl. rewrite app_nil_r.
  split; [done|]. split; [done | constructor].
Qed.

Lemma returning_forceAndRecord win element name id :
  returning (fun _ => True) (forceAndRecord win element name id).
Proof.
  eapply returning_bind; [apply returning_perform|]. intros _ _.
  eapply returning_bind; [apply returning_invoke|]. intros _ _.
  apply returning_setActive.
Qed.

Lemma returning_whenTruthy experimentId (body : string → Method unit) :
  (∀ id, returning (fun _ => True) (body id)) →
  returning (fun _ => True) (whenTruthy experimentId body).
Proof.
  intros Hb. unfold whenTruthy. destruct experimentId as [id|].
  - destruct (Js.truthy (Some id)); [apply Hb | by apply returning_ret].
  - by apply returning_ret.
Qed.

Lemma returning_maybeSelectExperiment win element branches name :
  returning (fun _ => True) (maybeSelectExperiment win element branches name).
Proof.
  eapply returning_bind; [apply returning_invoke|]. intros _ _.
  apply returning_invoke.
Qed.

Lemma returning_unconditionedSelection_ win element :
  returning (fun v => v = Js.Undefined) (unconditionedSelection_ win element).
Proof.
  eapply returning_bind; [apply returning_maybeSelectExperiment|].
  intros experimentId _.
  eapply returning_bind; [|intros _ _; by apply returning_ret].
  apply returning_whenTruthy. intros id. apply returning_forceAndRecord.
Qed.

Lemma returning_selectionCallback win element experiment :
  returning (fun _ => True) (selectionCallback win element experiment).
Proof.
  eapply (returning_bind (fun _ => True));
    [|intros _ _; by apply returning_ret].
  destruct (diversionCriteria experiment tt); [|by apply returning_ret].
  eapply (returning_bind (fun _ => True)).
  - unfold chooseExperimentId. destruct (Js.truthy _).
    + by apply (returning_ret (fun _ => True)).
    + apply returning_maybeSelectExperiment.
  - intros experimentId _. apply returning_whenTruthy.
    intros id. apply returning_forceAndRecord.
Qed.

Lemma returning_selectA4aExperiments win element useRemoteHtml :
  returning (fun v => v = Js.Undefined)
            (selectA4aExperiments win element useRemoteHtml).
Proof.
  eapply returning_bind; [apply returning_unconditionedSelection_|].
  intros _ _.
  eapply returning_bind; [by apply (returning_gets (fun _ => True))|].
  intros exps _.
  eapply returning_bind; [|intros _ _; by apply returning_ret].
  apply returning_forEach. intros experiment.
  apply returning_selectionCallback.
Qed.

Lemma returning_shouldUseFastFetch win element useRemoteHtml :
  returning (fun v => Js.is_boolean v = true)
            (shouldUseFastFetch win element useRemoteHtml).
Proof.
  intros st. rewrite shouldUseFastFetch_run. eexists. split; [done|].
  simpl. split; [done|]. by repeat constructor.
Qed.

Lemma returning_doubleclickIsA4AEnabled win element useRemoteHtml :
  returning (fun v => Js.is_boolean v = true)
            (doubleclickIsA4AEnabled win element useRemoteHtml).
Proof.
  eapply returning_bind; [apply returning_selectA4aExperiments|].
  intros _ _. apply returning_shouldUseFastFetch.
Qed.

(** ** The Fast Fetch decision *)

Lemma isFastFetchEligible_by_value element useRemoteHtml :
  isFastFetchEligible element useRemoteHtml = true
  ↔ eligibleByValue element useRemoteHtml.
Proof.
  unfold isFastFetchEligible, eligibleByValue, in_dataset, hasAttribute,
    getAttribute, Js.truthy.
  destruct (attributes element !! "rtc-config") as [rtc|];
    destruct (dataset element !! "useSameDomainRenderingUntilDeprecated");
    destruct (attributes element !! "useSameDomainRenderingUntilDeprecated");
    destruct useRemoteHtml; simpl;
    try destruct (String.eqb_spec rtc ""); simpl;
    rewrite ?orb_true_r; simpl; intuition congruence.
Qed.

(** C2, amended.  shouldUseFastFetch always returns a boolean; it returns
    true exactly when the window's origin matches the CDN-proxy regular
    expression and the element is eligible, where eligible means: not
    (useRemoteHtml is set and the rtc-config attribute is missing or
    empty), and useSameDomainRenderingUntilDeprecated is neither a key of
    the dataset nor an attribute.  The value returned is the same in any
    two states, so it does not depend on the flag map. *)
Theorem shouldUseFastFetch_decision
    (win : Window) (element : Element) (useRemoteHtml : bool)
    (st st' : State X E) :
  (result (shouldUseFastFetch win element useRemoteHtml st)
   = Normal (Js.Boolean true)
   ↔ eligibleByValue element useRemoteHtml ∧ isCdnProxy win = true)
  ∧ (∃ b, result (shouldUseFastFetch win element useRemoteHtml st)
          = Normal (Js.Boolean b))
  ∧ result (shouldUseFastFetch win element useRemoteHtml st)
    = result (shouldUseFastFetch win element useRemoteHtml st').
Proof.
  rewrite !shouldUseFastFetch_run. simpl. split; [|split].
  - rewrite <- isFastFetchEligible_by_value. split.
    + intros [= H]. by apply andb_true_iff.
    + intros [-> ->]. done.
  - by eexists.
  - done.
Qed.

(** ** The flag map *)

Lemma evolves_flagsAreForced (st st' : State X E) :
  flagsAreForced st → evolves st st' → flagsAreForced st'.
Proof.
  intros Hinv (new & Hh & _ & Hv) k v Hk. rewrite Hh.
  destruct (Hv k v Hk) as [Hold | [-> Hf]].
  - destruct (Hinv k v Hold) as [-> Hf]. split; [done|].
    by apply forcedIn_app_l.
  - split; [done|]. by apply forcedIn_app_r.
Qed.

Lemma evolves_dom (st st' : State X E) :
  evolves st st' →
  dom (activeExperiments_ st) ⊆ dom (activeExperiments_ st').
Proof.
  intros (new & _ & Hk & _) k. rewrite !elem_of_dom. apply Hk.
Qed.


(** C5.  Every entry of the flag map holds true for an experiment id that
    was forced: in every state the singleton reaches from its creation
    through calls to doubleclickIsA4AEnabled, each key of the map was
    passed to addExperimentIdToElement and then to forceExperimentBranch,
    both returning normally; and each run of selectA4aExperiments, of
    shouldUseFastFetch and of doubleclickIsA4AEnabled changes the map only
    by entries holding true whose key is added and forced by calls of that
    same run. *)
Theorem flag_map_keys_are_forced :
  (∀ (x : X) views, flagsAreForced (pageViews views (constructor x)))
  ∧ (∀ win element useRemoteHtml (st : State X E),
       evolves st (final (selectA4aExperiments win element useRemoteHtml st))
       ∧ evolves st (final (shouldUseFastFetch win element useRemoteHtml st))
       ∧ evolves st
           (final (doubleclickIsA4AEnabled win element useRemoteHtml st))).
Proof.
  split.
  - intros x views.
    apply (evolves_flagsAreForced (constructor x)); [|apply evolves_pageViews].
    intros k v Hk. simpl in Hk. by rewrite lookup_empty in Hk.
  - intros win element useRemoteHtml st. split; [|split].
    + apply evolving_selectA4aExperiments.
    + apply evolving_shouldUseFastFetch.
    + apply evolving_doubleclickIsA4AEnabled.
Qed.

(** C6.  The flag map is never reset: the set of its keys after any run
    of selectA4aExperiments, shouldUseFastFetch or doubleclickIsA4AEnabled,
    whether it returns or throws, contains the set of its keys before;
    hence along any sequence of calls to doubleclickIsA4AEnabled on the
    singleton the key set only grows. *)
Theorem flag_map_never_reset
    (win : Window) (element : Element) (useRemoteHtml : bool)
    (views more : list (Window * Element * bool)) (st : State X E) :
  dom (activeExperiments_ st)
    ⊆ dom (activeExperiments_
             (final (selectA4aExperiments win element useRemoteHtml st)))
  ∧ dom (activeExperiments_ st)
    ⊆ dom (activeExperiments_
             (final (shouldUseFastFetch win element useRemoteHtml st)))
  ∧ dom (activeExperiments_ st)
    ⊆ dom (activeExperiments_
             (final (doubleclickIsA4AEnabled win element useRemoteHtml st)))
  ∧ dom (activeExperiments_ st) ⊆ dom (activeExperiments_ (pageViews views st))
  ∧ dom (activeExperiments_ (pageViews views st))
    ⊆ dom (activeExperiments_ (pageViews (views ++ more) st)).
Proof.
  repeat split.
  - apply evolves_dom, evolving_selectA4aExperiments.
  - apply evolves_dom, evolving_shouldUseFastFetch.
  - apply evolves_dom, evolving_doubleclickIsA4AEnabled.
  - apply evolves_dom, evolves_pageViews.
  - unfold pageViews. rewrite fold_left_app.
    apply evolves_dom, evolves_pageViews.
Qed.

(** ** What the decision functions return *)

Lemma returning_experimentFeatureEnabled win feature opt_experimentName :
  returning (fun v => Js.is_boolean v = true)
            (experimentFeatureEnabled win feature opt_experimentName).
Proof.
  eapply returning_bind; [apply returning_invoke|].
  intros branch _. by apply returning_ret.
Qed.

(** C7, amended.  The Fast Fetch decision shouldUseFastFetch returns a
    boolean on every window, element and flag, in every state.  The two
    exported functions, doubleclickIsA4AEnabled on every window, element
    and flag and experimentFeatureEnabled on every window, feature and
    experiment name, return a boolean unless a call to the bucketing
    utility throws, in which case they end with that exception.
    selectA4aExperiments, the decision on the experiment branch, returns
    undefined under the same proviso: its choice is left in the flag map
    and in the forced branches, not in a returned string or null. *)
Theorem decision_functions_return
    (win : Window) (element : Element) (useRemoteHtml : bool)
    (feature : string) (opt_experimentName : option string)
    (st : State X E) :
  (∃ b, result (shouldUseFastFetch win element useRemoteHtml st)
        = Normal (Js.Boolean b))
  ∧ returning (fun v => Js.is_boolean v = true)
              (doubleclickIsA4AEnabled win element useRemoteHtml)
  ∧ returning (fun v => Js.is_boolean v = true)
              (experimentFeatureEnabled win feature opt_experimentName)
  ∧ returning (fun v => v = Js.Undefined)
              (selectA4aExperiments win element useRemoteHtml).
Proof.
  split; [|split; [|split]].
  - rewrite shouldUseFastFetch_run. by eexists.
  - apply returning_doubleclickIsA4AEnabled.
  - apply returning_experimentFeatureEnabled.
  - apply returning_selectA4aExperiments.
Qed.

(** ** The unconditioned selection *)

Lemma maybeSelectExperiment_run win element branches name (st : State X E) :
  maybeSelectExperiment win element branches name st =
  match randomlySelectUnsetExperiments win name branches (world st) with
  | (Normal _, x1) =>
      let st1 :=
        log (CallRandomlySelectUnsetExperiments name branches) None st x1 in
      match getExperimentBranch win name x1 with
      | (Normal chosen, x2) =>
          (Normal chosen, log (CallGetExperimentBranch name) None st1 x2)
      | (Thrown e, x2) =>
          (Thrown e, log (CallGetExperimentBranch name) (Some e) st1 x2)
      end
  | (Thrown e, x1) =>
      (Thrown e,
       log (CallRandomlySelectUnsetExperiments name branches) (Some e) st x1)
  end.
Proof.
  unfold maybeSelectExperiment, bind, callRandomlySelectUnsetExperiments,
    callGetExperimentBranch, invoke.
  destruct (randomlySelectUnsetExperiments _ _ _ _) as [[[]|e] x1]; simpl;
    [|done].
  by destruct (getExperimentBranch _ _ _) as [[chosen|e] x2].
Qed.

Lemma maybeSelectExperiment_flags win element branches name (st : State X E) :
  activeExperiments_ (final (maybeSelectExperiment win element branches name st))
  = activeExperiments_ st.
Proof.
  rewrite maybeSelectExperiment_run.
  destruct (randomlySelectUnsetExperiments _ _ _ _) as [[[]|e] x1]; simpl;
    [|done].
  by destruct (getExperimentBranch _ _ _) as [[chosen|e] x2].
Qed.

Lemma evolving_conditionedSelection win element useRemoteHtml :
  evolving (conditionedSelection win element useRemoteHtml).
Proof.
  apply evolving_bind; [apply evolving_gets|].
  intros exps. apply evolving_bind; [|intros _; apply evolving_ret].
  apply evolving_forEach. intros experiment.
  apply evolving_selectionCallback.
Qed.

Lemma selectA4aExperiments_run win element useRemoteHtml (st : State X E) :
  selectA4aExperiments win element useRemoteHtml st =
  match unconditionedSelection_ win element st with
  | (Normal _, st1) => conditionedSelection win element useRemoteHtml st1
  | (Thrown e, st1) => (Thrown e, st1)
  end.
Proof. reflexivity. Qed.

Lemma unconditionedSelection__run win element (st : State X E) :
  unconditionedSelection_ win element st =
  match maybeSelectExperiment win element
          (Some ["21061145"; "21061146"])
          DOUBLECLICK_UNCONDITIONED_EXPERIMENT_NAME st with
  | (Normal chosen, st1) =>
      match whenTruthy chosen
              (forceAndRecord win element
                 DOUBLECLICK_UNCONDITIONED_EXPERIMENT_NAME) st1 with
      | (Normal _, st2) => (Normal Js.Undefined, st2)
      | (Thrown e, st2) => (Thrown e, st2)
      end
  | (Thrown e, st1) => (Thrown e, st1)
  end.
Proof. reflexivity. Qed.


(** ** The two decisions in sequence *)

Lemma unconditionedSelection__first_call win element (st : State X E) :
  ∃ t rest,
    history (final (unconditionedSelection_ win element st))
    = history st
      ++ Build_Event
           (CallRandomlySelectUnsetExperiments
              DOUBLECLICK_UNCONDITIONED_EXPERIMENT_NAME
              (Some ["21061145"; "21061146"])) t
         :: rest.
Proof.
  rewrite unconditionedSelection__run.
  set (name := DOUBLECLICK_UNCONDITIONED_EXPERIMENT_NAME).
  set (branches := Some ["21061145"; "21061146"]).
  pose proof (maybeSelectExperiment_run win element branches name st) as Hrun.
  assert (Hfirst : ∃ t rest,
    history (final (maybeSelectExperiment win element branches name st))
    = history st
      ++ Build_Event (CallRandomlySelectUnsetExperiments name branches) t
         :: rest).
  { rewrite Hrun.
    destruct (randomlySelectUnsetExperiments win name branches (world st))
      as [[[]|e] x1]; simpl; [|by exists (Some e), []].
    destruct (getExperimentBranch win name x1) as [[chosen|e] x2]; simpl;
      eexists None, [_]; by rewrite <- app_assoc. }
  destruct Hfirst as (t & rest & Hfirst).
  destruct (maybeSelectExperiment win element branches name st)
    as [[chosen|e] st1]; simpl in *; [|by exists t, rest].
  pose proof (evolving_whenTruthy chosen (forceAndRecord win element name)
                (evolving_forceAndRecord win element name) st1)
    as (new & Hh & _).
  destruct (whenTruthy chosen _ st1) as [[[]|e] st2]; simpl in *;
    exists t, (rest ++ new); by rewrite Hh, Hfirst, <- app_assoc.
Qed.

(** C8.  doubleclickIsA4AEnabled makes the two decisions in sequence.  Its
    first call to a collaborator is the one that opens the unconditioned
    selection.  When selectA4aExperiments returns, leaving the state
    [st1], doubleclickIsA4AEnabled is the run of shouldUseFastFetch on the
    same window, element and flag from [st1], and what it returns is what
    shouldUseFastFetch returns on them (in [st1] as in any state [st']);
    when selectA4aExperiments throws, so does doubleclickIsA4AEnabled. *)
Theorem doubleclickIsA4AEnabled_selects_then_decides
    (win : Window) (element : Element) (useRemoteHtml : bool)
    (st st' : State X E) :
  let r := doubleclickIsA4AEnabled win element useRemoteHtml st in
  (∃ t rest,
     history (final r)
     = history st
       ++ Build_Event
            (CallRandomlySelectUnsetExperiments
               DOUBLECLICK_UNCONDITIONED_EXPERIMENT_NAME
               (Some ["21061145"; "21061146"])) t
          :: rest)
  ∧ match selectA4aExperiments win element useRemoteHtml st with
    | (Normal _, st1) =>
        r = shouldUseFastFetch win element useRemoteHtml st1
        ∧ result r = result (shouldUseFastFetch win element useRemoteHtml st')
        ∧ result r
          = Normal (Js.Boolean (isFastFetchEligible element useRemoteHtml
                                && isCdnProxy win))
    | (Thrown e, st1) => r = (Thrown e, st1)
    end.
Proof.
  intros r. split.
  - destruct (unconditionedSelection__first_call win element st)
      as (t & rest & Hfirst).
    assert (Hev : evolves (final (unconditionedSelection_ win element st))
                          (final r)).
    { subst r. unfold doubleclickIsA4AEnabled, isA4aEnabled, bind.
      rewrite selectA4aExperiments_run.
      destruct (unconditionedSelection_ win element st) as [[v|e] st1];
        simpl; [|apply evolves_refl].
      pose proof (evolving_conditionedSelection win element useRemoteHtml st1)
        as Hc.
      destruct (conditionedSelection win element useRemoteHtml st1)
        as [[v'|e] st2]; simpl in *; [|done].
      eapply evolves_trans; [exact Hc|].
      apply evolving_shouldUseFastFetch. }
    destruct Hev as (new & Hh & _).
    exists t, (rest ++ new). by rewrite Hh, Hfirst, <- app_assoc.
  - subst r. unfold doubleclickIsA4AEnabled, isA4aEnabled, bind.
    destruct (selectA4aExperiments win element useRemoteHtml st)
      as [[v|e] st1]; [|done].
    split; [done|]. by rewrite !shouldUseFastFetch_run.
Qed.

(** ** Exceptions *)







(** ** The beta attribute *)

(** C10.  On the CDN proxy, for an element that is eligible for Fast Fetch
    and carries the attribute data-use-beta-a4a-implementation, whatever
    the URL experiment id (the value -1 of the manual experiment
    included): of the five entries of the conditioned list only the last
    one, the beta entry, has a criteria that holds, so neither the
    holdback-internal entry nor the URL-experiment entry applies; and once
    the unconditioned selection has returned, leaving the state [st1],
    selectA4aExperiments makes exactly two more calls: it adds the id
    2077831 to the element and then asks forceExperimentBranch to force
    it under expDoubleclickA4A, in the state of the collaborators the
    addition leaves.  When forceExperimentBranch returns,
    selectA4aExperiments returns undefined with 2077831 set in the flag
    map; when it throws, selectA4aExperiments ends with that exception and
    the flag map of [st1]; in both cases the collaborators are left in the
    state forceExperimentBranch gives. *)
Theorem beta_attribute_takes_precedence
    (win : Window) (element : Element) (useRemoteHtml : bool)
    (st st1 : State X E) (v : Js.value) :
  isFastFetchEligible element useRemoteHtml = true →
  isCdnProxy win = true →
  hasAttribute element BETA_ATTRIBUTE = true →
  unconditionedSelection_ win element st = (Normal v, st1) →
  let add := Build_Event (CallAddExperimentIdToElement "2077831") None in
  let force :=
    Build_Event
      (CallForceExperimentBranch DOUBLECLICK_A4A_EXPERIMENT_NAME "2077831") in
  List.map (fun e => diversionCriteria e tt)
           (conditionedExperiments win element useRemoteHtml st1)
  = [false; false; false; false; true]
  ∧ match forceExperimentBranch win DOUBLECLICK_A4A_EXPERIMENT_NAME "2077831"
            (addExperimentIdToElement "2077831" element (world st1)) with
    | (Normal _, x2) =>
        selectA4aExperiments win element useRemoteHtml st
        = (Normal Js.Undefined,
           {| activeExperiments_ :=
                <["2077831" := true]> (activeExperiments_ st1);
              world := x2;
              history := history st1 ++ [add; force None] |})
    | (Thrown e, x2) =>
        selectA4aExperiments win element useRemoteHtml st
        = (Thrown e,
           {| activeExperiments_ := activeExperiments_ st1;
              world := x2;
              history := history st1 ++ [add; force (Some e)] |})
    end.
Proof.
  intros Heligible Hcdn Hbeta Hunconditioned add force.
  assert (Hcriteria :
    List.map (fun e => diversionCriteria e tt)
             (conditionedExperiments win element useRemoteHtml st1)
    = [false; false; false; false; true]).
  { unfold conditionedExperiments, experiments. simpl.
    rewrite Heligible, Hcdn, Hbeta. simpl.
    by rewrite !andb_false_r. }
  split; [exact Hcriteria|].
  rewrite selectA4aExperiments_run, Hunconditioned.
  unfold conditionedSelection, bind, gets.
  rewrite forEach_firstMatchWins by apply experiments_at_most_one.
  clear Hcriteria. unfold conditionedExperiments, experiments. simpl.
  rewrite Heligible, Hcdn, Hbeta. simpl. rewrite !andb_false_r.
  unfold selectionCallback, bind. simpl.
  pose proof (forceAndRecord_run win element DOUBLECLICK_A4A_EXPERIMENT_NAME
                BETA_EXPERIMENT_ID st1) as Hrun.
  simpl in Hrun. unfold BETA_EXPERIMENT_ID in *. rewrite Hrun. clear Hrun.
  by destruct (forceExperimentBranch win DOUBLECLICK_A4A_EXPERIMENT_NAME
                 "2077831" _) as [[[]|e] x2].
Qed.

End Runs.

(** ** Runs on concrete pages *)

(** On a publisher's origin, without URL experiment and in production
    mode, the canonical entry applies: a branch of expDfpCanonicalFf is
    selected and forced under expDoubleclickA4A, and Fast Fetch is off. *)
Example canonical_page_view :
  let r :=
    doubleclickIsA4AEnabled Stub.publisher (Stub.ampAd []) false
      (constructor (Stub.world None 0)) in
  result r = Normal (Js.Boolean false)
  ∧ map_to_list (activeExperiments_ (final r))
    = [("21061145", true); ("21060932", true)]
  ∧ List.map call (removelast (history (final r)))
    = [ CallRandomlySelectUnsetExperiments "expUnconditionedDoubleclick"
          (Some ["21061145"; "21061146"]);
        CallGetExperimentBranch "expUnconditionedDoubleclick";
        CallAddExperimentIdToElement "21061145";
        CallForceExperimentBranch "expUnconditionedDoubleclick" "21061145";
        CallRandomlySelectUnsetExperiments "expDfpCanonicalFf"
          (Some ["21060932"; "21060933"]);
        CallGetExperimentBranch "expDfpCanonicalFf";
        CallAddExperimentIdToElement "21060932";
        CallForceExperimentBranch "expDoubleclickA4A" "21060932" ].
Proof. vm_compute. repeat split; reflexivity. Qed.

(** With useRemoteHtml set and no rtc-config the element is not eligible:
    no entry of the conditioned list applies and Fast Fetch is off, on the
    CDN proxy too. *)
Example remote_html_page_view :
  let r :=
    doubleclickIsA4AEnabled Stub.cdn (Stub.ampAd []) true
      (constructor (Stub.world (Some "2") 7)) in
  result r = Normal (Js.Boolean false)
  ∧ activeExperiments_ (final r) = ∅
  ∧ List.map call (removelast (history (final r)))
    = [ CallRandomlySelectUnsetExperiments "expUnconditionedDoubleclick"
          (Some ["21061145"; "21061146"]);
        CallGetExperimentBranch "expUnconditionedDoubleclick" ].
Proof. vm_compute. repeat split; reflexivity. Qed.

(** C1.  The claim is that shouldUseFastFetch returns false as soon as the
    flag map holds one of the ids 21060727, 2092614 and 21060932.  The
    code does not: on the CDN proxy, for a page view whose URL selects the
    experiment 2 (the external holdback) and an eligible element,
    doubleclickIsA4AEnabled sets 21060727 in the flag map and the
    Fast Fetch decision it returns, that of shouldUseFastFetch, is still
    true; so is the decision of shouldUseFastFetch run on its own from a
    flag map that holds the three ids. *)
Theorem holdback_does_not_stop_fast_fetch :
  let element := Stub.ampAd [] in
  let r :=
    doubleclickIsA4AEnabled Stub.cdn element false
      (constructor (Stub.world (Some "2") 0)) in
  let held : State Stub.World string :=
    {| activeExperiments_ :=
         {[ "21060727" := true; "2092614" := true; "21060932" := true ]};
       world := Stub.world None 0;
       history := [] |} in
  activeExperiments_ (final r) !! DOUBLECLICK_EXPERIMENT_FEATURE.HOLDBACK_EXTERNAL
  = Some true
  ∧ result r = Normal (Js.Boolean true)
  ∧ result (shouldUseFastFetch Stub.cdn element false (final r))
    = Normal (Js.Boolean true)
  ∧ result (shouldUseFastFetch Stub.cdn element false held)
    = Normal (Js.Boolean true).
Proof. vm_compute. repeat split; reflexivity. Qed.

(** C2 as worded fails: an element whose rtc-config attribute is present
    but empty does not lack the attribute, so with useRemoteHtml set and
    on the CDN proxy the claim has shouldUseFastFetch return true; it
    returns false. *)
Lemma shouldUseFastFetch_not_by_presence :
  let element := Stub.ampAd [("rtc-config", "")] in
  let st := constructor (Stub.world None 0) in
  ¬ (result (shouldUseFastFetch Stub.cdn element true st)
     = Normal (Js.Boolean true)
     ↔ eligibleByPresence element true = true ∧ isCdnProxy Stub.cdn = true).
Proof.
  intros element st [_ Hclaim].
  assert (Hcode : result (shouldUseFastFetch Stub.cdn element true st)
                  = Normal (Js.Boolean false)) by (vm_compute; reflexivity).
  rewrite Hclaim in Hcode; [discriminate|].
  split; vm_compute; reflexivity.
Qed.

Lemma shouldUseFastFetch_decision_witness :
  result (shouldUseFastFetch Stub.cdn
            (Stub.ampAd [("rtc-config", "{}")]) true
            (constructor (Stub.world None 0)))
  = Normal (Js.Boolean true).
Proof.
  apply (proj1 (shouldUseFastFetch_decision Stub.cdn
                  (Stub.ampAd [("rtc-config", "{}")]) true
                  (constructor (Stub.world None 0))
                  (constructor (Stub.world None 0)))).
  split; [|vm_compute; reflexivity].
  split; [|split; vm_compute; reflexivity].
  intros [_ [Hrtc | Hrtc]]; vm_compute in Hrtc; discriminate.
Defined.

(** C7 as worded fails: selectA4aExperiments, the decision on the
    experiment branch, returns undefined, which is neither a string nor
    null. *)
Lemma selectA4aExperiments_returns_undefined :
  let st := constructor (Stub.world None 0) in
  ¬ ∃ v, result (selectA4aExperiments Stub.cdn (Stub.ampAd []) false st)
         = Normal v
         ∧ Js.is_string_or_null v = true.
Proof.
  intros st (v & Hv & Hs). vm_compute in Hv. injection Hv as <-.
  discriminate.
Qed.


Lemma beta_attribute_takes_precedence_witness :
  let element := Stub.ampAd [(BETA_ATTRIBUTE, "")] in
  let st := constructor (Stub.world (Some "-1") 0) in
  let r := selectA4aExperiments Stub.cdn element false st in
  result r = Normal Js.Undefined
  ∧ activeExperiments_ (final r) !! "2077831" = Some true
  ∧ Stub.experimentBranches (world (final r)) !! "expDoubleclickA4A"
    = Some (Some "2077831")
  ∧ Stub.experimentIdsOfElement (world (final r)) = ["21061145"; "2077831"].
Proof.
  intros element st r.
  unshelve epose proof
    (beta_attribute_takes_precedence Stub.cdn element false st
       (final (unconditionedSelection_ Stub.cdn element st))
       Js.Undefined _ _ _ _) as [_ Hrun];
    try (vm_compute; reflexivity).
  subst r. revert Hrun.
  generalize (selectA4aExperiments Stub.cdn element false st).
  intros r Hrun. vm_compute in Hrun. subst r.
  vm_compute. repeat split; reflexivity.
Defined.

(** * Further properties *)

(** ** The matcher and the words matched *)

Lemma string_app_nil_l (b : string) : "" +:+ b = b.
Proof. reflexivity. Qed.

Lemma string_app_cons c (a b : string) :
  String c a +:+ b = String c (a +:+ b).
Proof. reflexivity. Qed.

Lemma string_app_nil_r (s : string) : s +:+ "" = s.
Proof.
  induction s as [|c s IH]; [done|]. by rewrite string_app_cons, IH.
Qed.

Lemma string_app_assoc (a b c : string) : (a +:+ b) +:+ c = a +:+ (b +:+ c).
Proof.
  induction a as [|x a IH]; [done|]. by rewrite !string_app_cons, IH.
Qed.

Lemma string_app_eq_nil (a b : string) : a +:+ b = "" → a = "" ∧ b = "".
Proof. destruct a; [done | discriminate]. Qed.

Lemma string_app_eq_cons (a b : string) c w :
  a +:+ b = String c w →
  (a = "" ∧ b = String c w) ∨ ∃ a', a = String c a' ∧ w = a' +:+ b.
Proof.
  destruct a as [|x a]; [by left|]. rewrite string_app_cons.
  intros [= -> <-]. right. by exists a.
Qed.

Lemma nullable_Matches r rest :
  Regex.nullable (atEnd rest) r = true ↔ Matches r "" rest.
Proof.
  split.
  - induction r; simpl; intros H; try discriminate.
    + constructor.
    + apply andb_true_iff in H as [H1 H2].
      apply (Matches_Seq r1 r2 "" "" rest); auto.
    + apply orb_true_iff in H as [H|H];
        [apply Matches_Alt_l | apply Matches_Alt_r]; auto.
    + constructor.
    + destruct rest; [constructor | discriminate].
  - intros H. remember EmptyString as w eqn:Hw.
    induction H; simpl; try discriminate; try reflexivity.
    + apply string_app_eq_nil in Hw as [-> ->].
      rewrite string_app_nil_l in IHMatches1.
      rewrite IHMatches1, IHMatches2; done.
    + rewrite IHMatches; done.
    + rewrite IHMatches; [apply orb_true_r | done].
Qed.

Lemma Matches_Star_cons_inv r c w rest :
  Matches (Regex.Star r) (String c w) rest →
  ∃ w1 w2, w = w1 +:+ w2
           ∧ Matches r (String c w1) (w2 +:+ rest)
           ∧ Matches (Regex.Star r) w2 rest.
Proof.
  intros H. remember (Regex.Star r) as sr eqn:Hsr.
  remember (String c w) as cw eqn:Hcw.
  induction H; try discriminate.
  injection Hsr as ->.
  apply string_app_eq_cons in Hcw as [[-> ->] | (a' & -> & ->)].
  - by apply IHMatches2.
  - by exists a', w2.
Qed.

Lemma deriv_Matches r c w rest :
  Matches (Regex.deriv c r) w rest ↔ Matches r (String c w) rest.
Proof.
  split.
  - revert w rest. induction r; simpl; intros w rest H.
    + inversion H.
    + inversion H.
    + destruct (p c) eqn:Hp; inversion H; subst. by constructor.
    + assert (Hseq : ∀ w, Matches (Regex.Seq (Regex.deriv c r1) r2) w rest →
                          Matches (Regex.Seq r1 r2) (String c w) rest).
      { intros w' H'. inversion H'; subst.
        apply (Matches_Seq r1 r2 (String c w1) w2 rest); auto. }
      destruct (Regex.nullable false r1) eqn:Hn; [|by apply Hseq].
      inversion H; subst; [by apply Hseq|].
      apply (Matches_Seq r1 r2 "" (String c w) rest); [|by apply IHr2].
      by apply (nullable_Matches r1 (String c (w +:+ rest))).
    + inversion H; subst;
        [apply Matches_Alt_l | apply Matches_Alt_r]; auto.
    + inversion H; subst.
      apply (Matches_Star_cons r (String c w1) w2 rest); auto.
    + inversion H.
  - revert w rest. induction r; simpl; intros w rest H.
    + inversion H.
    + inversion H.
    + inversion H as [|? ? ? Hp| | | | | |]; subst. rewrite Hp. constructor.
    + inversion H as [| |? ? w1 w2 ? H1 H2 Hr Hw| | | | |]; subst.
      apply string_app_eq_cons in Hw as [[-> ->] | (a' & -> & ->)].
      * apply (nullable_Matches r1 (String c (w +:+ rest))) in H1.
        simpl in H1. rewrite H1. apply Matches_Alt_r. by apply IHr2.
      * assert (Hseq : Matches (Regex.Seq (Regex.deriv c r1) r2)
                               (a' +:+ w2) rest).
        { apply Matches_Seq; [by apply IHr1 | done]. }
        destruct (Regex.nullable false r1); [by apply Matches_Alt_l | done].
    + inversion H; subst;
        [apply Matches_Alt_l | apply Matches_Alt_r]; auto.
    + apply Matches_Star_cons_inv in H as (w1 & w2 & -> & H1 & H2).
      apply Matches_Seq; [by apply IHr | done].
    + inversion H.
Qed.

(** The matcher decides whether a prefix of the input is matched. *)
Lemma matches_prefix_Matches r s :
  Regex.matches_prefix r s = true
  ↔ ∃ w rest, s = w +:+ rest ∧ Matches r w rest.
Proof.
  revert r. induction s as [|a s IH]; intros r; simpl.
  - split.
    + intros H. exists "", "". split; [done|].
      by apply (nullable_Matches r "").
    + intros (w & rest & Hs & H). symmetry in Hs.
      apply string_app_eq_nil in Hs as [-> ->].
      by apply (nullable_Matches r "").
  - rewrite orb_true_iff, IH. split.
    + intros [H | (w & rest & -> & H)].
      * exists "", (String a s). split; [done|].
        by apply (nullable_Matches r (String a s)).
      * exists (String a w), rest. split; [done|]. by apply deriv_Matches.
    + intros (w & rest & Hs & H). symmetry in Hs.
      apply string_app_eq_cons in Hs as [[-> ->] | (w' & -> & ->)].
      * left. by apply (nullable_Matches r (String a s)).
      * right. exists w', rest. split; [done|]. by apply deriv_Matches.
Qed.

(** ** The origins isCdnProxy accepts *)

Lemma Matches_Seq_inv r1 r2 w rest :
  Matches (Regex.Seq r1 r2) w rest →
  ∃ w1 w2, w = w1 +:+ w2 ∧ Matches r1 w1 (w2 +:+ rest) ∧ Matches r2 w2 rest.
Proof. intros H. inversion H; subst. by exists w1, w2. Qed.

Lemma Matches_Chr c w rest :
  Matches (Regex.Chr c) w rest ↔ w = String c "".
Proof.
  split.
  - intros H. inversion H as [|? c' ? Hc| | | | | |]; subst.
    by apply Ascii.eqb_eq in Hc as ->.
  - intros ->. constructor. apply Ascii.eqb_refl.
Qed.

Lemma Matches_Lit s w rest : Matches (Regex.Lit s) w rest ↔ w = s.
Proof.
  split.
  - revert w rest. induction s as [|c s IH]; simpl; intros w rest H.
    + by inversion H.
    + apply Matches_Seq_inv in H as (w1 & w2 & -> & H1 & H2).
      apply Matches_Chr in H1 as ->. by apply IH in H2 as ->.
  - intros ->. revert rest. induction s as [|c s IH]; simpl; intros rest.
    + constructor.
    + apply (Matches_Seq _ _ (String c "") s); [by apply Matches_Chr | done].
Qed.

Lemma Matches_Star_Class p w rest :
  Matches (Regex.Star (Regex.Class p)) w rest ↔ string_forallb p w = true.
Proof.
  split.
  - intros H. remember (Regex.Star (Regex.Class p)) as sr eqn:Hsr.
    induction H; try discriminate; [done|].
    injection Hsr as ->.
    inversion H as [|? c ? Hc| | | | | |]; subst.
    rewrite string_app_cons, string_app_nil_l. simpl.
    rewrite Hc. by apply IHMatches2.
  - revert rest. induction w as [|c w IH]; simpl; intros rest H.
    + constructor.
    + apply andb_true_iff in H as [Hc Hw].
      apply (Matches_Star_cons _ (String c "") w); [by constructor | auto].
Qed.

Lemma Matches_Plus_Class p w rest :
  Matches (Regex.Plus (Regex.Class p)) w rest
  ↔ w ≠ "" ∧ string_forallb p w = true.
Proof.
  unfold Regex.Plus. split.
  - intros (w1 & w2 & -> & H1 & H2)%Matches_Seq_inv.
    inversion H1 as [|? c ? Hc| | | | | |]; subst.
    apply Matches_Star_Class in H2.
    rewrite string_app_cons, string_app_nil_l. simpl.
    by rewrite Hc, H2.
  - intros [Hne H]. destruct w as [|c w]; [done|]. simpl in H.
    apply andb_true_iff in H as [Hc Hw].
    apply (Matches_Seq _ _ (String c "") w); [by constructor|].
    by apply Matches_Star_Class.
Qed.

Local Abbreviation afterHost :=
  (Regex.Plus (Regex.Alt (Regex.Seq (Regex.Chr "/"%char)
                                    (Regex.Star Regex.Dot))
                         Regex.End)).

Local Abbreviation subdomain :=
  (Regex.Opt (Regex.Seq (Regex.Plus (Regex.Class isLabelCharacter))
                        (Regex.Chr "."%char))).

(** What may follow the host: a slash and anything, or the end. *)
Lemma Matches_afterHost_inv w rest :
  Matches afterHost w rest →
  w +:+ rest = "" ∨ ∃ path, w +:+ rest = "/" +:+ path.
Proof.
  unfold Regex.Plus.
  intros (w1 & w2 & -> & H1 & _)%Matches_Seq_inv.
  inversion H1 as [| | |? ? ? ? Hl|? ? ? ? Hr| | |]; subst.
  - apply Matches_Seq_inv in Hl as (v1 & v2 & -> & Hv1 & _).
    apply Matches_Chr in Hv1 as ->. right.
    exists (v2 +:+ w2 +:+ rest). by rewrite !string_app_assoc.
  - inversion Hr as [| | | | | | |Hw Hrest]. left.
    by rewrite string_app_nil_l.
Qed.

Lemma Matches_afterHost_intro tail :
  tail = "" ∨ (∃ path, tail = "/" +:+ path) →
  ∃ w rest, tail = w +:+ rest ∧ Matches afterHost w rest.
Proof.
  unfold Regex.Plus. intros [-> | (path & ->)].
  - exists "", "". split; [done|].
    apply (Matches_Seq _ _ "" "" ""); [|constructor].
    apply Matches_Alt_r. constructor.
  - exists "/", path. split; [done|].
    apply (Matches_Seq _ _ "/" "" path); [|constructor].
    apply Matches_Alt_l.
    apply (Matches_Seq _ _ "/" "" path); [|constructor].
    by apply Matches_Chr.
Qed.

Lemma Matches_subdomain sub rest :
  Matches subdomain sub rest
  ↔ sub = ""
    ∨ ∃ label, sub = label +:+ "."
               ∧ label ≠ ""
               ∧ string_forallb isLabelCharacter label = true.
Proof.
  split.
  - intros H. inversion H as [| | |? ? ? ? Hl|? ? ? ? Hr| | |]; subst.
    + apply Matches_Seq_inv in Hl as (label & dot & -> & Hlabel & Hdot).
      apply Matches_Chr in Hdot as ->.
      apply Matches_Plus_Class in Hlabel as [Hne Hall].
      right. by exists label.
    + left. by inversion Hr.
  - intros [-> | (label & -> & Hne & Hall)].
    + apply Matches_Alt_r. constructor.
    + apply Matches_Alt_l. apply Matches_Seq; [|by apply Matches_Chr].
      by apply Matches_Plus_Class.
Qed.

Lemma isCdnProxy_isCdnProxyOrigin (win : Window) :
  isCdnProxy win = true ↔ isCdnProxyOrigin (location_origin win).
Proof.
  unfold isCdnProxy, Regex.test_anchored. rewrite matches_prefix_Matches.
  change googleCdnProxyRegex with
    (Regex.Seq (Regex.Lit "https://")
       (Regex.Seq subdomain
          (Regex.Seq (Regex.Lit "cdn.ampproject.org") afterHost))).
  unfold isCdnProxyOrigin. split.
  - intros (w & rest & -> & H).
    apply Matches_Seq_inv in H as (w1 & w' & -> & H1 & H).
    apply Matches_Lit in H1 as ->.
    apply Matches_Seq_inv in H as (sub & w'' & -> & Hsub & H).
    apply Matches_Seq_inv in H as (w3 & w4 & -> & H3 & H4).
    apply Matches_Lit in H3 as ->.
    exists sub, (w4 +:+ rest). split; [by rewrite !string_app_assoc|].
    split; [by apply Matches_subdomain in Hsub|].
    by apply Matches_afterHost_inv.
  - intros (sub & tail & -> & Hsub & Htail).
    apply Matches_afterHost_intro in Htail as (w4 & rest & -> & H4).
    exists ("https://" +:+ sub +:+ "cdn.ampproject.org" +:+ w4), rest.
    split; [by rewrite !string_app_assoc|].
    apply Matches_Seq; [by apply Matches_Lit|].
    apply Matches_Seq; [by apply Matches_subdomain|].
    apply Matches_Seq; [by apply Matches_Lit | done].
Qed.

(** X1.  isCdnProxy accepts exactly the origins made of https://, the
    host cdn.ampproject.org or a single label of letters, digits,
    underscores and hyphens followed by a dot and that host, and then
    either nothing or a slash and anything: no other scheme, no deeper
    subdomain, no port and no other host that merely starts or ends with
    cdn.ampproject.org. *)
Theorem isCdnProxy_accepts_cdn_origins (win : Window) :
  isCdnProxy win = true ↔ isCdnProxyOrigin (location_origin win).
Proof. apply isCdnProxy_isCdnProxyOrigin. Qed.

(** ** Which entry of the conditioned list applies *)

Section Further.

Context {X E : Type} `{C : Collaborators X E}.

Local Open Scope method_scope.

Local Abbreviation Method := (M X E).

(** X2.  The conditioned list is exhaustive on eligible elements and
    closed to the others: whatever the CDN-proxy status, the URL
    experiment id, the dev mode and the beta attribute, exactly one entry
    has a criteria that holds when the element is eligible for Fast Fetch,
    and none has when it is not. *)
Theorem conditioned_list_exactly_one
    (urlExperimentId : option string)
    (eligible cdnProxy devMode betaAttribute : bool) :
  List.length
    (List.filter (fun e => diversionCriteria e tt)
       (experiments urlExperimentId eligible cdnProxy devMode betaAttribute))
  = if eligible then 1%nat else 0%nat.
Proof.
  unfold experiments. simpl.
  destruct eligible, cdnProxy, devMode, betaAttribute,
    (Js.loose_eq_number urlExperimentId (-1)),
    (Js.loose_eq_undefined urlExperimentId); reflexivity.
Qed.

Lemma conditionedSelection_firstMatchWins win element useRemoteHtml
    (st : State X E) :
  conditionedSelection win element useRemoteHtml st =
  match firstMatchWins win element
          (conditionedExperiments win element useRemoteHtml st) st with
  | (Normal _, st') => (Normal Js.Undefined, st')
  | (Thrown e, st') => (Thrown e, st')
  end.
Proof.
  unfold conditionedSelection, bind, gets.
  rewrite forEach_firstMatchWins by apply experiments_at_most_one.
  by destruct (firstMatchWins _ _ _ _) as [[[]|e] st'].
Qed.

Lemma unconditionedSelection__value win element (st st1 : State X E) v :
  unconditionedSelection_ win element st = (Normal v, st1) → v = Js.Undefined.
Proof.
  intros Hrun.
  destruct (returning_unconditionedSelection_ win element st)
    as (new & _ & Hpost).
  rewrite Hrun in Hpost. simpl in Hpost. by destruct Hpost.
Qed.

(** The run of a selection that buckets among [branches] of the
    experiment [name] and forces the branch got under expDoubleclickA4A. *)
Lemma bucketing_entry_run win element (experiment : Experiment)
    (st : State X E) :
  diversionCriteria experiment tt = true →
  Js.truthy (forceExperimentId experiment) = false →
  (match (selectionCallback win element experiment ;;; ret tt) st with
   | (Normal _, st') => (Normal Js.Undefined, st')
   | (Thrown e, st') => (Thrown e, st')
   end : outcome E Js.value * State X E)
  = (chosen <- maybeSelectExperiment win element
                 (experimentBranchIds experiment) (experimentName experiment) ;;
     whenTruthy chosen
       (forceAndRecord win element DOUBLECLICK_A4A_EXPERIMENT_NAME) ;;;
     ret Js.Undefined) st.
Proof.
  intros Hc Hf. unfold selectionCallback, chooseExperimentId, bind.
  rewrite Hc, Hf.
  destruct (maybeSelectExperiment _ _ _ _ st) as [[chosen|e] st1]; [|done].
  by destruct (whenTruthy chosen _ st1) as [[[]|e] st2].
Qed.

(** The run of a selection that forces the id [id] of its entry. *)
Lemma forcing_entry_run win element (experiment : Experiment) id
    (st : State X E) :
  diversionCriteria experiment tt = true →
  forceExperimentId experiment = Some id →
  id ≠ "" →
  (match (selectionCallback win element experiment ;;; ret tt) st with
   | (Normal _, st') => (Normal Js.Undefined, st')
   | (Thrown e, st') => (Thrown e, st')
   end : outcome E Js.value * State X E)
  = (forceAndRecord win element DOUBLECLICK_A4A_EXPERIMENT_NAME id ;;;
     ret Js.Undefined) st.
Proof.
  intros Hc Hf Hid. unfold selectionCallback, chooseExperimentId, bind.
  assert (Ht : Js.truthy (Some id) = true).
  { simpl. by destruct (String.eqb_spec id ""). }
  rewrite Hc, Hf, Ht. unfold ret, whenTruthy. rewrite Ht.
  by destruct (forceAndRecord _ _ _ id st) as [[[]|e] st1].
Qed.

Lemma canonical_experiment_program
    (win : Window) (element : Element) (useRemoteHtml : bool)
    (st : State X E) :
  isFastFetchEligible element useRemoteHtml = true →
  isCdnProxy win = false →
  Js.loose_eq_number (extractUrlExperimentId win element (world st)) (-1)
  && (localDev (getMode win (world st)) || test (getMode win (world st)))
  = false →
  conditionedSelection win element useRemoteHtml st
  = (chosen <- maybeSelectExperiment win element
                 (Some ["21060932"; "21060933"])
                 DFP_CANONICAL_FF_EXPERIMENT_NAME ;;
     whenTruthy chosen
       (forceAndRecord win element DOUBLECLICK_A4A_EXPERIMENT_NAME) ;;;
     ret Js.Undefined) st.
Proof.
  intros Heligible Hcdn Hmanual.
  rewrite conditionedSelection_firstMatchWins.
  unfold conditionedExperiments, experiments.
  cbn [firstMatchWins diversionCriteria].
  rewrite Heligible, Hcdn. cbn [andb negb]. rewrite Hmanual.
  rewrite <- negb_andb, Hmanual. cbn [negb].
  by apply bucketing_entry_run.
Qed.

Lemma manual_experiment_program
    (win : Window) (element : Element) (useRemoteHtml : bool)
    (st : State X E) :
  isFastFetchEligible element useRemoteHtml = true →
  isCdnProxy win = false →
  Js.loose_eq_number (extractUrlExperimentId win element (world st)) (-1)
  = true →
  localDev (getMode win (world st)) || test (getMode win (world st)) = true →
  MANUAL_EXPERIMENT_ID ≠ "" →
  conditionedSelection win element useRemoteHtml st
  = (forceAndRecord win element DOUBLECLICK_A4A_EXPERIMENT_NAME
       MANUAL_EXPERIMENT_ID ;;;
     ret Js.Undefined) st.
Proof.
  intros Heligible Hcdn Hminus Hdev Hmanual.
  rewrite conditionedSelection_firstMatchWins.
  unfold conditionedExperiments, experiments.
  cbn [firstMatchWins diversionCriteria].
  rewrite Heligible, Hcdn, Hminus, Hdev. cbn [andb negb].
  by apply forcing_entry_run.
Qed.

Lemma holdback_internal_program
    (win : Window) (element : Element) (useRemoteHtml : bool)
    (st : State X E) :
  isFastFetchEligible element useRemoteHtml = true →
  isCdnProxy win = true →
  hasAttribute element BETA_ATTRIBUTE = false →
  extractUrlExperimentId win element (world st) = None →
  conditionedSelection win element useRemoteHtml st
  = (chosen <- maybeSelectExperiment win element
                 (Some ["2092613"; "2092614"])
                 DOUBLECLICK_A4A_EXPERIMENT_NAME ;;
     whenTruthy chosen
       (forceAndRecord win element DOUBLECLICK_A4A_EXPERIMENT_NAME) ;;;
     ret Js.Undefined) st.
Proof.
  intros Heligible Hcdn Hbeta Hurl.
  rewrite conditionedSelection_firstMatchWins.
  unfold conditionedExperiments, experiments.
  cbn [firstMatchWins diversionCriteria].
  rewrite Heligible, Hcdn, Hbeta, Hurl.
  cbn [andb negb Js.loose_eq_undefined].
  by apply bucketing_entry_run.
Qed.

Lemma URL_EXPERIMENT_MAPPING_empty_key manual :
  property (URL_EXPERIMENT_MAPPING manual) "" = None.
Proof. reflexivity. Qed.

Lemma url_experiment_program
    (win : Window) (element : Element) (useRemoteHtml : bool)
    (st : State X E) (urlExperimentId id : string) :
  isFastFetchEligible element useRemoteHtml = true →
  isCdnProxy win = true →
  hasAttribute element BETA_ATTRIBUTE = false →
  extractUrlExperimentId win element (world st) = Some urlExperimentId →
  property (URL_EXPERIMENT_MAPPING MANUAL_EXPERIMENT_ID) urlExperimentId
  = Some id →
  id ≠ "" →
  conditionedSelection win element useRemoteHtml st
  = (forceAndRecord win element DOUBLECLICK_A4A_EXPERIMENT_NAME id ;;;
     ret Js.Undefined) st.
Proof.
  intros Heligible Hcdn Hbeta Hurl Hmapped Hid.
  rewrite conditionedSelection_firstMatchWins.
  unfold conditionedExperiments, experiments.
  cbn [firstMatchWins diversionCriteria].
  rewrite Heligible, Hcdn, Hbeta, Hurl.
  cbn [andb negb Js.loose_eq_undefined].
  apply forcing_entry_run; [done| |done].
  cbn [forceExperimentId]. rewrite Hmapped.
  destruct (Js.truthy (Some urlExperimentId)) eqn:Ht; [done|].
  assert (urlExperimentId = "") as ->.
  { simpl in Ht. by destruct (String.eqb_spec urlExperimentId ""). }
  by rewrite URL_EXPERIMENT_MAPPING_empty_key in Hmapped.
Qed.

Lemma unmapped_url_experiment_program
    (win : Window) (element : Element) (useRemoteHtml : bool)
    (st : State X E) (urlExperimentId : string) :
  isFastFetchEligible element useRemoteHtml = true →
  isCdnProxy win = true →
  hasAttribute element BETA_ATTRIBUTE = false →
  extractUrlExperimentId win element (world st) = Some urlExperimentId →
  Js.truthy
    (property (URL_EXPERIMENT_MAPPING MANUAL_EXPERIMENT_ID) urlExperimentId)
  = false →
  conditionedSelection win element useRemoteHtml st
  = (chosen <- maybeSelectExperiment win element None
                 DOUBLECLICK_A4A_EXPERIMENT_NAME ;;
     whenTruthy chosen
       (forceAndRecord win element DOUBLECLICK_A4A_EXPERIMENT_NAME) ;;;
     ret Js.Undefined) st.
Proof.
  intros Heligible Hcdn Hbeta Hurl Hunmapped.
  rewrite conditionedSelection_firstMatchWins.
  unfold conditionedExperiments, experiments.
  cbn [firstMatchWins diversionCriteria].
  rewrite Heligible, Hcdn, Hbeta, Hurl.
  cbn [andb negb Js.loose_eq_undefined].
  apply bucketing_entry_run; [done|].
  cbn [forceExperimentId]. by destruct (Js.truthy (Some urlExperimentId)).
Qed.

(** X3.  For an element that is not eligible for Fast Fetch,
    selectA4aExperiments does what the unconditioned selection does and
    no more (no entry of the conditioned list is run), and
    doubleclickIsA4AEnabled returns false, unless the unconditioned
    selection throws. *)
Theorem ineligible_element_selection
    (win : Window) (element : Element) (useRemoteHtml : bool)
    (st : State X E) :
  isFastFetchEligible element useRemoteHtml = false →
  selectA4aExperiments win element useRemoteHtml st
  = unconditionedSelection_ win element st
  ∧ result (doubleclickIsA4AEnabled win element useRemoteHtml st)
    = match result (unconditionedSelection_ win element st) with
      | Normal _ => Normal (Js.Boolean false)
      | Thrown e => Thrown e
      end.
Proof.
  intros Heligible.
  assert (Hselect : selectA4aExperiments win element useRemoteHtml st
                    = unconditionedSelection_ win element st).
  { rewrite selectA4aExperiments_run.
    destruct (unconditionedSelection_ win element st) as [[v|e] st1] eqn:Hrun;
      [|done].
    apply unconditionedSelection__value in Hrun as ->.
    unfold conditionedSelection, bind, gets.
    rewrite forEach_no_match; [done|].
    unfold conditionedExperiments, experiments. rewrite Heligible.
    reflexivity. }
  split; [done|].
  unfold doubleclickIsA4AEnabled, isA4aEnabled, bind. rewrite Hselect.
  destruct (unconditionedSelection_ win element st) as [[v|e] st1]; [|done].
  rewrite shouldUseFastFetch_run. simpl. by rewrite Heligible.
Qed.

(** ** What the entry that applies does

    The two shapes a conditioned selection takes, in terms of what the
    collaborators answer. *)

Lemma forcing_program_run win element id (st : State X E) :
  (forceAndRecord win element DOUBLECLICK_A4A_EXPERIMENT_NAME id ;;;
   ret Js.Undefined) st
  = let add := Build_Event (CallAddExperimentIdToElement id) None in
    let force :=
      Build_Event
        (CallForceExperimentBranch DOUBLECLICK_A4A_EXPERIMENT_NAME id) in
    match forceExperimentBranch win DOUBLECLICK_A4A_EXPERIMENT_NAME id
            (addExperimentIdToElement id element (world st)) with
    | (Normal _, x2) =>
        (Normal Js.Undefined,
         {| activeExperiments_ := <[id := true]> (activeExperiments_ st);
            world := x2;
            history := history st ++ [add; force None] |})
    | (Thrown e, x2) =>
        (Thrown e,
         {| activeExperiments_ := activeExperiments_ st;
            world := x2;
            history := history st ++ [add; force (Some e)] |})
    end.
Proof.
  unfold bind. rewrite forceAndRecord_run. simpl.
  by destruct (forceExperimentBranch win _ id _) as [[[]|e] x2].
Qed.

Lemma bucketing_program_run win element name branches (st : State X E) :
  (chosen <- maybeSelectExperiment win element branches name ;;
   whenTruthy chosen
     (forceAndRecord win element DOUBLECLICK_A4A_EXPERIMENT_NAME) ;;;
   ret Js.Undefined) st
  = let select :=
      Build_Event (CallRandomlySelectUnsetExperiments name branches) in
    let get := Build_Event (CallGetExperimentBranch name) in
    let add id := Build_Event (CallAddExperimentIdToElement id) None in
    let force id :=
      Build_Event
        (CallForceExperimentBranch DOUBLECLICK_A4A_EXPERIMENT_NAME id) in
    let nothing_forced x :=
      (Normal Js.Undefined,
       {| activeExperiments_ := activeExperiments_ st;
          world := x;
          history := history st ++ [select None; get None] |}) in
    match randomlySelectUnsetExperiments win name branches (world st) with
    | (Thrown e, x1) =>
        (Thrown e,
         {| activeExperiments_ := activeExperiments_ st;
            world := x1;
            history := history st ++ [select (Some e)] |})
    | (Normal _, x1) =>
        match getExperimentBranch win name x1 with
        | (Thrown e, x2) =>
            (Thrown e,
             {| activeExperiments_ := activeExperiments_ st;
                world := x2;
                history := history st ++ [select None; get (Some e)] |})
        | (Normal None, x2) => nothing_forced x2
        | (Normal (Some id), x2) =>
            if String.eqb id "" then nothing_forced x2
            else
              match forceExperimentBranch win DOUBLECLICK_A4A_EXPERIMENT_NAME
                      id (addExperimentIdToElement id element x2) with
              | (Normal _, x3) =>
                  (Normal Js.Undefined,
                   {| activeExperiments_ :=
                        <[id := true]> (activeExperiments_ st);
                      world := x3;
                      history :=
                        history st
                        ++ [select None; get None; add id; force id None] |})
              | (Thrown e, x3) =>
                  (Thrown e,
                   {| activeExperiments_ := activeExperiments_ st;
                      world := x3;
                      history :=
                        history st
                        ++ [select None; get None; add id;
                            force id (Some e)] |})
              end
        end
    end.
Proof.
  unfold bind. rewrite maybeSelectExperiment_run.
  destruct (randomlySelectUnsetExperiments win name branches (world st))
    as [[[]|e] x1]; simpl; [|done].
  destruct (getExperimentBranch win name x1) as [[chosen|e] x2];
    unfold log; simpl; [|by rewrite <- ?app_assoc].
  destruct chosen as [id|]; simpl; [|by rewrite <- ?app_assoc].
  destruct (String.eqb id ""); simpl; [by rewrite <- ?app_assoc|].
  rewrite forceAndRecord_run. simpl.
  destruct (forceExperimentBranch win _ id _) as [[[]|e] x3]; simpl;
    by rewrite <- ?app_assoc.
Qed.

(** X4.  Off the CDN proxy, for an eligible element, unless the URL
    experiment id is -1 in dev mode, the conditioned selection is the
    following and nothing else.  It calls randomlySelectUnsetExperiments
    for expDfpCanonicalFf with the branches 21060932 and 21060933, then
    getExperimentBranch for expDfpCanonicalFf in the state that leaves.
    If the branch got is null or empty it returns undefined with the flag
    map unchanged.  Otherwise it calls addExperimentIdToElement with that
    branch and then forceExperimentBranch with it under expDoubleclickA4A
    (not expDfpCanonicalFf), and when this returns it sets the branch to
    true in the flag map and returns undefined.  If one of the three calls
    to the bucketing utility throws, it ends with that exception, after
    the calls made so far and with the flag map unchanged.  The
    collaborators are left in the state the last call gives. *)
Theorem canonical_experiment_selection
    (win : Window) (element : Element) (useRemoteHtml : bool)
    (st : State X E) :
  isFastFetchEligible element useRemoteHtml = true →
  isCdnProxy win = false →
  Js.loose_eq_number (extractUrlExperimentId win element (world st)) (-1)
  && (localDev (getMode win (world st)) || test (getMode win (world st)))
  = false →
  let name := DFP_CANONICAL_FF_EXPERIMENT_NAME in
  let branches : option (list string) := Some ["21060932"; "21060933"] in
  let select :=
    Build_Event (CallRandomlySelectUnsetExperiments name branches) in
  let get := Build_Event (CallGetExperimentBranch name) in
  let add id := Build_Event (CallAddExperimentIdToElement id) None in
  let force id :=
    Build_Event
      (CallForceExperimentBranch DOUBLECLICK_A4A_EXPERIMENT_NAME id) in
  let nothing_forced x :=
    (Normal Js.Undefined,
     {| activeExperiments_ := activeExperiments_ st;
        world := x;
        history := history st ++ [select None; get None] |}) in
  conditionedSelection win element useRemoteHtml st
  = match randomlySelectUnsetExperiments win name branches (world st) with
    | (Thrown e, x1) =>
        (Thrown e,
         {| activeExperiments_ := activeExperiments_ st;
            world := x1;
            history := history st ++ [select (Some e)] |})
    | (Normal _, x1) =>
        match getExperimentBranch win name x1 with
        | (Thrown e, x2) =>
            (Thrown e,
             {| activeExperiments_ := activeExperiments_ st;
                world := x2;
                history := history st ++ [select None; get (Some e)] |})
        | (Normal None, x2) => nothing_forced x2
        | (Normal (Some id), x2) =>
            if String.eqb id "" then nothing_forced x2
            else
              match forceExperimentBranch win DOUBLECLICK_A4A_EXPERIMENT_NAME
                      id (addExperimentIdToElement id element x2) with
              | (Normal _, x3) =>
                  (Normal Js.Undefined,
                   {| activeExperiments_ :=
                        <[id := true]> (activeExperiments_ st);
                      world := x3;
                      history :=
                        history st
                        ++ [select None; get None; add id; force id None] |})
              | (Thrown e, x3) =>
                  (Thrown e,
                   {| activeExperiments_ := activeExperiments_ st;
                      world := x3;
                      history :=
                        history st
                        ++ [select None; get None; add id;
                            force id (Some e)] |})
              end
        end
    end.
Proof.
  intros Heligible Hcdn Hmanual name branches select get add force
    nothing_forced.
  rewrite canonical_experiment_program by done.
  apply bucketing_program_run.
Qed.

(** X5.  Off the CDN proxy, for an eligible element, with the URL
    experiment id -1 and in dev mode (localDev or test), and for a manual
    experiment id that is not the empty string, the conditioned selection
    is the following and nothing else: it calls addExperimentIdToElement
    with the manual experiment id and then forceExperimentBranch with it
    under expDoubleclickA4A, in the state of the collaborators the
    addition leaves; when the forcing returns it sets the id to true in
    the flag map and returns undefined, when the forcing throws it ends
    with that exception and the flag map unchanged.  The bucketing utility
    is not asked for a branch. *)
Theorem manual_experiment_selection
    (win : Window) (element : Element) (useRemoteHtml : bool)
    (st : State X E) :
  isFastFetchEligible element useRemoteHtml = true →
  isCdnProxy win = false →
  Js.loose_eq_number (extractUrlExperimentId win element (world st)) (-1)
  = true →
  localDev (getMode win (world st)) || test (getMode win (world st)) = true →
  MANUAL_EXPERIMENT_ID ≠ "" →
  let id := MANUAL_EXPERIMENT_ID in
  let add := Build_Event (CallAddExperimentIdToElement id) None in
  let force :=
    Build_Event
      (CallForceExperimentBranch DOUBLECLICK_A4A_EXPERIMENT_NAME id) in
  conditionedSelection win element useRemoteHtml st
  = match forceExperimentBranch win DOUBLECLICK_A4A_EXPERIMENT_NAME id
            (addExperimentIdToElement id element (world st)) with
    | (Normal _, x2) =>
        (Normal Js.Undefined,
         {| activeExperiments_ := <[id := true]> (activeExperiments_ st);
            world := x2;
            history := history st ++ [add; force None] |})
    | (Thrown e, x2) =>
        (Thrown e,
         {| activeExperiments_ := activeExperiments_ st;
            world := x2;
            history := history st ++ [add; force (Some e)] |})
    end.
Proof.
  intros Heligible Hcdn Hminus Hdev Hmanual id add force.
  rewrite manual_experiment_program by done.
  apply forcing_program_run.
Qed.

(** X6.  On the CDN proxy, for an eligible element without the beta
    attribute and without URL experiment id, the conditioned selection is
    the following and nothing else.  It calls
    randomlySelectUnsetExperiments for expDoubleclickA4A with the branches
    2092613 and 2092614 (the internal holdback), then getExperimentBranch
    for expDoubleclickA4A in the state that leaves.  If the branch got is
    null or empty it returns undefined with the flag map unchanged.
    Otherwise it calls addExperimentIdToElement with that branch and then
    forceExperimentBranch with it under expDoubleclickA4A, and when this
    returns it sets the branch to true in the flag map and returns
    undefined.  If one of the three calls to the bucketing utility throws,
    it ends with that exception, after the calls made so far and with the
    flag map unchanged.  The collaborators are left in the state the last
    call gives. *)
Theorem holdback_internal_selection
    (win : Window) (element : Element) (useRemoteHtml : bool)
    (st : State X E) :
  isFastFetchEligible element useRemoteHtml = true →
  isCdnProxy win = true →
  hasAttribute element BETA_ATTRIBUTE = false →
  extractUrlExperimentId win element (world st) = None →
  let name := DOUBLECLICK_A4A_EXPERIMENT_NAME in
  let branches : option (list string) := Some ["2092613"; "2092614"] in
  let select :=
    Build_Event (CallRandomlySelectUnsetExperiments name branches) in
  let get := Build_Event (CallGetExperimentBranch name) in
  let add id := Build_Event (CallAddExperimentIdToElement id) None in
  let force id :=
    Build_Event
      (CallForceExperimentBranch DOUBLECLICK_A4A_EXPERIMENT_NAME id) in
  let nothing_forced x :=
    (Normal Js.Undefined,
     {| activeExperiments_ := activeExperiments_ st;
        world := x;
        history := history st ++ [select None; get None] |}) in
  conditionedSelection win element useRemoteHtml st
  = match randomlySelectUnsetExperiments win name branches (world st) with
    | (Thrown e, x1) =>
        (Thrown e,
         {| activeExperiments_ := activeExperiments_ st;
            world := x1;
            history := history st ++ [select (Some e)] |})
    | (Normal _, x1) =>
        match getExperimentBranch win name x1 with
        | (Thrown e, x2) =>
            (Thrown e,
             {| activeExperiments_ := activeExperiments_ st;
                world := x2;
                history := history st ++ [select None; get (Some e)] |})
        | (Normal None, x2) => nothing_forced x2
        | (Normal (Some id), x2) =>
            if String.eqb id "" then nothing_forced x2
            else
              match forceExperimentBranch win DOUBLECLICK_A4A_EXPERIMENT_NAME
                      id (addExperimentIdToElement id element x2) with
              | (Normal _, x3) =>
                  (Normal Js.Undefined,
                   {| activeExperiments_ :=
                        <[id := true]> (activeExperiments_ st);
                      world := x3;
                      history :=
                        history st
                        ++ [select None; get None; add id; force id None] |})
              | (Thrown e, x3) =>
                  (Thrown e,
                   {| activeExperiments_ := activeExperiments_ st;
                      world := x3;
                      history :=
                        history st
                        ++ [select None; get None; add id;
                            force id (Some e)] |})
              end
        end
    end.
Proof.
  intros Heligible Hcdn Hbeta Hurl name branches select get add force
    nothing_forced.
  rewrite holdback_internal_program by done.
  apply bucketing_program_run.
Qed.

(** X7.  On the CDN proxy, for an eligible element without the beta
    attribute, when URL_EXPERIMENT_MAPPING maps the URL experiment id to a
    non-empty experiment id, the conditioned selection is the following
    and nothing else: it calls addExperimentIdToElement with the mapped id
    and then forceExperimentBranch with it under expDoubleclickA4A, in the
    state of the collaborators the addition leaves; when the forcing
    returns it sets the mapped id to true in the flag map and returns
    undefined, when the forcing throws it ends with that exception and the
    flag map unchanged.  The bucketing utility is not asked for a
    branch. *)
Theorem url_experiment_selection
    (win : Window) (element : Element) (useRemoteHtml : bool)
    (st : State X E) (urlExperimentId mapped : string) :
  isFastFetchEligible element useRemoteHtml = true →
  isCdnProxy win = true →
  hasAttribute element BETA_ATTRIBUTE = false →
  extractUrlExperimentId win element (world st) = Some urlExperimentId →
  property (URL_EXPERIMENT_MAPPING MANUAL_EXPERIMENT_ID) urlExperimentId
  = Some mapped →
  mapped ≠ "" →
  let id := mapped in
  let add := Build_Event (CallAddExperimentIdToElement id) None in
  let force :=
    Build_Event
      (CallForceExperimentBranch DOUBLECLICK_A4A_EXPERIMENT_NAME id) in
  conditionedSelection win element useRemoteHtml st
  = match forceExperimentBranch win DOUBLECLICK_A4A_EXPERIMENT_NAME id
            (addExperimentIdToElement id element (world st)) with
    | (Normal _, x2) =>
        (Normal Js.Undefined,
         {| activeExperiments_ := <[id := true]> (activeExperiments_ st);
            world := x2;
            history := history st ++ [add; force None] |})
    | (Thrown e, x2) =>
        (Thrown e,
         {| activeExperiments_ := activeExperiments_ st;
            world := x2;
            history := history st ++ [add; force (Some e)] |})
    end.
Proof.
  intros Heligible Hcdn Hbeta Hurl Hmapped Hid id add force.
  rewrite (url_experiment_program win element useRemoteHtml st
             urlExperimentId mapped) by done.
  apply forcing_program_run.
Qed.

(** X8.  On the CDN proxy, for an eligible element without the beta
    attribute, when URL_EXPERIMENT_MAPPING maps the URL experiment id to
    nothing truthy (the id 0, mapped to null, an id outside the table, the
    empty string), no id is forced for the URL experiment id itself; the
    conditioned selection is the following and nothing else.  It calls
    randomlySelectUnsetExperiments for expDoubleclickA4A with undefined
    branches, then getExperimentBranch for expDoubleclickA4A in the state
    that leaves.  If the branch got is null or empty it returns undefined
    with the flag map unchanged.  Otherwise it calls
    addExperimentIdToElement with that branch and then
    forceExperimentBranch with it under expDoubleclickA4A, and when this
    returns it sets the branch to true in the flag map and returns
    undefined.  If one of the three calls to the bucketing utility throws,
    it ends with that exception, after the calls made so far and with the
    flag map unchanged.  The collaborators are left in the state the last
    call gives. *)
Theorem unmapped_url_experiment_selection
    (win : Window) (element : Element) (useRemoteHtml : bool)
    (st : State X E) (urlExperimentId : string) :
  isFastFetchEligible element useRemoteHtml = true →
  isCdnProxy win = true →
  hasAttribute element BETA_ATTRIBUTE = false →
  extractUrlExperimentId win element (world st) = Some urlExperimentId →
  Js.truthy
    (property (URL_EXPERIMENT_MAPPING MANUAL_EXPERIMENT_ID) urlExperimentId)
  = false →
  let name := DOUBLECLICK_A4A_EXPERIMENT_NAME in
  let branches : option (list string) := None in
  let select :=
    Build_Event (CallRandomlySelectUnsetExperiments name branches) in
  let get := Build_Event (CallGetExperimentBranch name) in
  let add id := Build_Event (CallAddExperimentIdToElement id) None in
  let force id :=
    Build_Event
      (CallForceExperimentBranch DOUBLECLICK_A4A_EXPERIMENT_NAME id) in
  let nothing_forced x :=
    (Normal Js.Undefined,
     {| activeExperiments_ := activeExperiments_ st;
        world := x;
        history := history st ++ [select None; get None] |}) in
  conditionedSelection win element useRemoteHtml st
  = match randomlySelectUnsetExperiments win name branches (world st) with
    | (Thrown e, x1) =>
        (Thrown e,
         {| activeExperiments_ := activeExperiments_ st;
            world := x1;
            history := history st ++ [select (Some e)] |})
    | (Normal _, x1) =>
        match getExperimentBranch win name x1 with
        | (Thrown e, x2) =>
            (Thrown e,
             {| activeExperiments_ := activeExperiments_ st;
                world := x2;
                history := history st ++ [select None; get (Some e)] |})
        | (Normal None, x2) => nothing_forced x2
        | (Normal (Some id), x2) =>
            if String.eqb id "" then nothing_forced x2
            else
              match forceExperimentBranch win DOUBLECLICK_A4A_EXPERIMENT_NAME
                      id (addExperimentIdToElement id element x2) with
              | (Normal _, x3) =>
                  (Normal Js.Undefined,
                   {| activeExperiments_ :=
                        <[id := true]> (activeExperiments_ st);
                      world := x3;
                      history :=
                        history st
                        ++ [select None; get None; add id; force id None] |})
              | (Thrown e, x3) =>
                  (Thrown e,
                   {| activeExperiments_ := activeExperiments_ st;
                      world := x3;
                      history :=
                        history st
                        ++ [select None; get None; add id;
                            force id (Some e)] |})
              end
        end
    end.
Proof.
  intros Heligible Hcdn Hbeta Hurl Hunmapped name branches select get add
    force nothing_forced.
  rewrite (unmapped_url_experiment_program win element useRemoteHtml st
             urlExperimentId) by done.
  apply bucketing_program_run.
Qed.

(** ** The calls a run makes *)

Lemma emitting_ret {A} (P : Call → Prop) (a : A) :
  emitting P (ret a : Method A).
Proof. intros st. exists []. simpl. by rewrite app_nil_r. Qed.

Lemma emitting_gets {A} (P : Call → Prop) (f : State X E → A) :
  emitting P (gets f).
Proof. intros st. exists []. simpl. by rewrite app_nil_r. Qed.

Lemma emitting_setActive (P : Call → Prop) id :
  emitting P (setActive id : Method unit).
Proof. intros st. exists []. simpl. by rewrite app_nil_r. Qed.

Lemma emitting_bind {A B} (P : Call → Prop) (m : Method A)
    (k : A → Method B) :
  emitting P m → (∀ a, emitting P (k a)) → emitting P (bind m k).
Proof.
  intros Hm Hk st. unfold bind. destruct (Hm st) as (new1 & Hh1 & HP1).
  destruct (m st) as [[a|e] st1]; simpl in *; [|by exists new1].
  destruct (Hk a st1) as (new2 & Hh2 & HP2).
  exists (new1 ++ new2). split; [by rewrite Hh2, Hh1, app_assoc|].
  by apply Forall_app.
Qed.

Lemma emitting_forEach {A B} (P : Call → Prop) (callback : A → Method B)
    (array : list A) :
  Forall (fun a => emitting P (callback a)) array →
  emitting P (forEach callback array).
Proof.
  induction 1 as [|a array Ha _ IH]; simpl.
  - apply emitting_ret.
  - apply emitting_bind; [exact Ha | intros _; exact IH].
Qed.

Lemma emitting_invoke {A} (P : Call → Prop) c (f : X → outcome E A * X) :
  P c → emitting P (invoke c f).
Proof.
  intros Hc st. unfold invoke.
  destruct (f (world st)) as [[a|e] x]; simpl; eexists;
    (split; [done|]); by repeat constructor.
Qed.

Lemma emitting_perform (P : Call → Prop) c (f : X → X) :
  P c → emitting P (perform c f : Method unit).
Proof.
  intros Hc st. eexists. split; [done|]. by repeat constructor.
Qed.

Lemma emitting_forceAndRecord (P : Call → Prop) win element name id :
  P (CallAddExperimentIdToElement id) →
  P (CallForceExperimentBranch name id) →
  emitting P (forceAndRecord win element name id).
Proof.
  intros Hadd Hforce.
  apply emitting_bind; [by apply emitting_perform|]. intros _.
  apply emitting_bind; [by apply emitting_invoke|]. intros _.
  apply emitting_setActive.
Qed.

Lemma emitting_whenTruthy (P : Call → Prop) chosen
    (body : string → Method unit) :
  (∀ id, id ≠ "" → emitting P (body id)) →
  emitting P (whenTruthy chosen body).
Proof.
  intros Hb. unfold whenTruthy. destruct chosen as [id|];
    [|apply emitting_ret].
  simpl. destruct (String.eqb_spec id ""); simpl;
    [apply emitting_ret | by apply Hb].
Qed.

Lemma emitting_maybeSelectExperiment (P : Call → Prop)
    win element branches name :
  P (CallRandomlySelectUnsetExperiments name branches) →
  P (CallGetExperimentBranch name) →
  emitting P (maybeSelectExperiment win element branches name).
Proof.
  intros Hselect Hget.
  apply emitting_bind; [by apply emitting_invoke|]. intros _.
  by apply emitting_invoke.
Qed.

Lemma emitting_selectionCallback (P : Call → Prop) win element experiment :
  (∀ id, id ≠ "" →
     P (CallAddExperimentIdToElement id)
     ∧ P (CallForceExperimentBranch DOUBLECLICK_A4A_EXPERIMENT_NAME id)) →
  P (CallRandomlySelectUnsetExperiments (experimentName experiment)
       (experimentBranchIds experiment)) →
  P (CallGetExperimentBranch (experimentName experiment)) →
  emitting P (selectionCallback win element experiment).
Proof.
  intros Hforce Hselect Hget.
  apply emitting_bind; [|intros _; apply emitting_ret].
  destruct (diversionCriteria experiment tt); [|apply emitting_ret].
  apply emitting_bind.
  - unfold chooseExperimentId. destruct (Js.truthy _); [apply emitting_ret|].
    by apply emitting_maybeSelectExperiment.
  - intros chosen. apply emitting_whenTruthy. intros id Hid.
    destruct (Hforce id Hid). by apply emitting_forceAndRecord.
Qed.

Lemma emitting_shouldUseFastFetch (P : Call → Prop)
    win element useRemoteHtml :
  (∀ logged, P (CallConsoleLog logged)) →
  emitting P (shouldUseFastFetch win element useRemoteHtml).
Proof.
  intros Hlog st. rewrite shouldUseFastFetch_run. eexists.
  split; [done|]. constructor; [apply Hlog | constructor].
Qed.

Lemma emitting_bind_gets {A B} (P : Call → Prop) (f : State X E → A)
    (k : A → Method B) :
  (∀ st, emitting P (k (f st))) → emitting P (bind (gets f) k).
Proof. intros Hk st. apply (Hk st st). Qed.

Local Ltac known_call := split; simpl; auto 10.

Lemma doubleclickIsA4AEnabled_calls win element useRemoteHtml :
  emitting (fun c => forcesTruthyId c ∧ bucketsKnownExperiment c)
           (doubleclickIsA4AEnabled win element useRemoteHtml).
Proof.
  apply emitting_bind;
    [|intros _; apply emitting_shouldUseFastFetch; intros logged; known_call].
  apply emitting_bind.
  - apply emitting_bind.
    + apply emitting_maybeSelectExperiment; known_call.
    + intros chosen. apply emitting_bind; [|intros _; apply emitting_ret].
      apply emitting_whenTruthy. intros id Hid.
      apply emitting_forceAndRecord; known_call.
  - intros _. apply emitting_bind_gets. intros st.
    apply emitting_bind; [|intros _; apply emitting_ret].
    apply emitting_forEach.
    unfold conditionedExperiments, experiments.
    repeat constructor; apply emitting_selectionCallback;
      try (intros id Hid); known_call.
Qed.

Lemma pageViews_calls views (st : State X E) :
  Forall (fun ev => forcesTruthyId (call ev)
                    ∧ bucketsKnownExperiment (call ev)) (history st) →
  Forall (fun ev => forcesTruthyId (call ev)
                    ∧ bucketsKnownExperiment (call ev))
         (history (pageViews views st)).
Proof.
  revert st. induction views as [|[[win element] useRemoteHtml] views IH];
    intros st Hst; simpl; [done|].
  apply IH.
  destruct (doubleclickIsA4AEnabled_calls win element useRemoteHtml st)
    as (new & -> & Hnew).
  by apply Forall_app.
Qed.

(** X10.  Only truthy ids are ever acted on, and branches are forced under
    two experiment names only: in every state the singleton reaches from
    its creation through calls to doubleclickIsA4AEnabled, each call to
    addExperimentIdToElement and to forceExperimentBranch was made with a
    non-empty id, each call to forceExperimentBranch under
    expUnconditionedDoubleclick or expDoubleclickA4A (never under
    expDfpCanonicalFf), and the empty string is not a key of the flag
    map. *)
Theorem only_truthy_ids_are_forced
    (x : X) (views : list (Window * Element * bool)) :
  let st : State X E := pageViews views (constructor x) in
  Forall (fun ev => forcesTruthyId (call ev)) (history st)
  ∧ activeExperiments_ st !! "" = None.
Proof.
  intros st.
  assert (Hcalls : Forall (fun ev => forcesTruthyId (call ev)) (history st)).
  { eapply Forall_impl;
      [apply pageViews_calls; constructor | by intros ev [Hev _]]. }
  split; [done|].
  destruct (activeExperiments_ st !! "") as [v|] eqn:Hkey; [|done].
  assert (Hforced : flagsAreForced st).
  { apply (evolves_flagsAreForced (constructor x));
      [|apply evolves_pageViews].
    intros k v' Hk. simpl in Hk. by rewrite lookup_empty in Hk. }
  destruct (Hforced "" v Hkey) as (_ & name & before & after & Hhistory).
  rewrite Hhistory in Hcalls.
  apply Forall_app in Hcalls as [_ Hcalls].
  apply Forall_app in Hcalls as [Hcalls _].
  by inversion Hcalls as [|? ? Hadd _].
Qed.

(** X11.  The bucketing utility is only ever asked about three
    experiments: in every state the singleton reaches from its creation
    through calls to doubleclickIsA4AEnabled, each call to
    randomlySelectUnsetExperiments was made for
    expUnconditionedDoubleclick with the branches 21061145 and 21061146,
    for expDfpCanonicalFf with the branches 21060932 and 21060933, for
    expDoubleclickA4A with the branches 2092613 and 2092614, or for one of
    the last two with undefined branches; and each call to
    getExperimentBranch was made for one of the three. *)
Theorem bucketing_requests_are_known
    (x : X) (views : list (Window * Element * bool)) :
  Forall (fun ev => bucketsKnownExperiment (call ev))
         (history (pageViews views (constructor x) : State X E)).
Proof.
  eapply Forall_impl;
    [apply pageViews_calls; constructor | by intros ev [_ Hev]].
Qed.

(** ** How many ids a run records *)

Lemma recording_unchanged {A} (m : Method A) :
  (∀ st, activeExperiments_ (final (m st)) = activeExperiments_ st) →
  recording 0 m.
Proof. intros Hm st. exists []. split; [done | apply Hm]. Qed.

Lemma recording_le {A} n n' (m : Method A) :
  (n <= n')%nat → recording n m → recording n' m.
Proof.
  intros Hle Hm st. destruct (Hm st) as (ids & Hlen & Hflags).
  exists ids. split; [lia | done].
Qed.

Lemma recording_bind {A B} n n' (m : Method A) (k : A → Method B) :
  recording n m → (∀ a, recording n' (k a)) → recording (n + n') (bind m k).
Proof.
  intros Hm Hk st. unfold bind. destruct (Hm st) as (ids1 & Hlen1 & Hflags1).
  destruct (m st) as [[a|e] st1]; simpl in *.
  - destruct (Hk a st1) as (ids2 & Hlen2 & Hflags2).
    exists (ids1 ++ ids2). split.
    + rewrite List.length_app. lia.
    + by rewrite foldl_app, <- Hflags1.
  - exists ids1. split; [lia | done].
Qed.

Lemma recording_forceAndRecord win element name id :
  recording 1 (forceAndRecord win element name id).
Proof.
  intros st. rewrite forceAndRecord_run. simpl.
  destruct (forceExperimentBranch win name id _) as [[[]|e] x2]; simpl.
  - by exists [id].
  - exists []. split; [simpl; lia | done].
Qed.

Lemma recording_whenTruthy chosen (body : string → Method unit) :
  (∀ id, recording 1 (body id)) → recording 1 (whenTruthy chosen body).
Proof.
  intros Hb. unfold whenTruthy.
  assert (Hret : recording 1 (ret tt : Method unit)).
  { apply (recording_le 0); [lia|]. by apply recording_unchanged. }
  destruct chosen as [id|]; [|done].
  by destruct (Js.truthy (Some id)).
Qed.

Lemma recording_maybeSelectExperiment win element branches name :
  recording 0 (maybeSelectExperiment win element branches name).
Proof.
  apply recording_unchanged. intros st. apply maybeSelectExperiment_flags.
Qed.

Lemma recording_unconditionedSelection_ win element :
  recording 1 (unconditionedSelection_ win element).
Proof.
  apply (recording_bind 0 1); [apply recording_maybeSelectExperiment|].
  intros chosen. apply (recording_bind 1 0).
  - apply recording_whenTruthy. intros id. apply recording_forceAndRecord.
  - intros _. by apply recording_unchanged.
Qed.

Lemma recording_selectionCallback win element experiment :
  recording 1 (selectionCallback win element experiment).
Proof.
  apply (recording_bind 1 0); [|intros _; by apply recording_unchanged].
  destruct (diversionCriteria experiment tt);
    [|apply (recording_le 0); [lia | by apply recording_unchanged]].
  apply (recording_bind 0 1).
  - unfold chooseExperimentId. destruct (Js.truthy _);
      [by apply recording_unchanged | apply recording_maybeSelectExperiment].
  - intros chosen. apply recording_whenTruthy. intros id.
    apply recording_forceAndRecord.
Qed.

Lemma recording_firstMatchWins win element experiments :
  recording 1 (firstMatchWins win element experiments).
Proof.
  induction experiments as [|experiment experiments IH]; simpl.
  - apply (recording_le 0); [lia | by apply recording_unchanged].
  - destruct (diversionCriteria experiment tt); [|exact IH].
    apply (recording_bind 1 0); [apply recording_selectionCallback|].
    intros _. by apply recording_unchanged.
Qed.

Lemma recording_conditionedSelection win element useRemoteHtml :
  recording 1 (conditionedSelection win element useRemoteHtml).
Proof.
  intros st. rewrite conditionedSelection_firstMatchWins.
  destruct (recording_firstMatchWins win element
              (conditionedExperiments win element useRemoteHtml st) st)
    as (ids & Hlen & Hflags).
  exists ids. split; [done|].
  by destruct (firstMatchWins _ _ _ st) as [[[]|e] st1].
Qed.

(** X9.  A page view records at most two experiment ids: a run of
    doubleclickIsA4AEnabled, whether it returns or throws, changes the
    flag map only by setting to true at most two ids, at most one in the
    unconditioned selection and at most one in the conditioned one, the
    Fast Fetch decision setting none. *)
Theorem page_view_records_at_most_two_ids
    (win : Window) (element : Element) (useRemoteHtml : bool) :
  recording 1 (unconditionedSelection_ win element)
  ∧ recording 1 (conditionedSelection win element useRemoteHtml)
  ∧ recording 0 (shouldUseFastFetch win element useRemoteHtml)
  ∧ recording 2 (selectA4aExperiments win element useRemoteHtml)
  ∧ recording 2 (doubleclickIsA4AEnabled win element useRemoteHtml).
Proof.
  assert (Hselect : recording 2
                      (selectA4aExperiments win element useRemoteHtml)).
  { apply (recording_bind 1 1); [apply recording_unconditionedSelection_|].
    intros _. apply recording_conditionedSelection. }
  assert (Hdecide : recording 0
                      (shouldUseFastFetch win element useRemoteHtml)).
  { apply recording_unchanged. intros st.
    by rewrite shouldUseFastFetch_run. }
  split; [apply recording_unconditionedSelection_|].
  split; [apply recording_conditionedSelection|].
  split; [done|]. split; [done|].
  by apply (recording_bind 2 0).
Qed.

(** ** The Fast Fetch decision, further *)

(** X12.  shouldUseFastFetch changes nothing but the console: a run of it
    leaves the flag map and the state of the collaborators as they are,
    makes no call to the bucketing utility nor to the element, and writes
    one line on the console, the flag map. *)
Theorem shouldUseFastFetch_only_logs
    (win : Window) (element : Element) (useRemoteHtml : bool)
    (st : State X E) :
  let st' := final (shouldUseFastFetch win element useRemoteHtml st) in
  activeExperiments_ st' = activeExperiments_ st
  ∧ world st' = world st
  ∧ history st'
    = history st ++ [Build_Event (CallConsoleLog (activeExperiments_ st)) None].
Proof. intros st'. subst st'. by rewrite shouldUseFastFetch_run. Qed.

(** X14.  Fast Fetch is enabled on the AMP CDN proxy only: when
    doubleclickIsA4AEnabled returns true, the origin of the window is
    https://cdn.ampproject.org or https:// followed by one label and
    .cdn.ampproject.org (possibly followed by a slash and more), and the
    element is eligible. *)
Theorem fast_fetch_only_on_cdn_origins
    (win : Window) (element : Element) (useRemoteHtml : bool)
    (st : State X E) :
  result (doubleclickIsA4AEnabled win element useRemoteHtml st)
  = Normal (Js.Boolean true) →
  isCdnProxyOrigin (location_origin win)
  ∧ eligibleByValue element useRemoteHtml.
Proof.
  unfold doubleclickIsA4AEnabled, isA4aEnabled, bind.
  destruct (selectA4aExperiments win element useRemoteHtml st)
    as [[v|e] st1]; [|done].
  rewrite shouldUseFastFetch_run. simpl. intros [= Htrue].
  apply andb_true_iff in Htrue as [Heligible Hcdn].
  split; [by apply isCdnProxy_isCdnProxyOrigin|].
  by apply isFastFetchEligible_by_value.
Qed.

(** ** experimentFeatureEnabled *)

(** X13.  experimentFeatureEnabled makes one call, getExperimentBranch,
    for the experiment name given or, when the name is omitted or is the
    empty string, for expDoubleclickA4A.  When the call returns a branch
    it returns true if the branch is the feature and false otherwise,
    false too when the branch is null; when the call throws it ends with
    that exception.  The flag map is unchanged and the collaborators are
    left in the state the call gives. *)
Theorem experimentFeatureEnabled_reads_branch
    (win : Window) (feature : string) (opt_experimentName : option string)
    (st : State X E) :
  let name :=
    match opt_experimentName with
    | Some given =>
        if String.eqb given "" then "expDoubleclickA4A" else given
    | None => "expDoubleclickA4A"
    end in
  let get := Build_Event (CallGetExperimentBranch name) in
  experimentFeatureEnabled win feature opt_experimentName st
  = match getExperimentBranch win name (world st) with
    | (Normal branch, x) =>
        (Normal
           (Js.Boolean
              match branch with
              | Some b => String.eqb b feature
              | None => false
              end),
         {| activeExperiments_ := activeExperiments_ st;
            world := x;
            history := history st ++ [get None] |})
    | (Thrown e, x) =>
        (Thrown e,
         {| activeExperiments_ := activeExperiments_ st;
            world := x;
            history := history st ++ [get (Some e)] |})
    end.
Proof.
  intros name get.
  assert (Hname : default DOUBLECLICK_A4A_EXPERIMENT_NAME
                    (Js.or_else opt_experimentName
                       (Some DOUBLECLICK_A4A_EXPERIMENT_NAME)) = name).
  { subst name. unfold Js.or_else, Js.truthy.
    destruct opt_experimentName as [given|]; [|done].
    by destruct (String.eqb given ""). }
  unfold experimentFeatureEnabled, bind, callGetExperimentBranch, invoke.
  rewrite Hname.
  destruct (getExperimentBranch win name (world st)) as [[branch|e] x];
    [|done].
  unfold ret, log. do 3 f_equal.
  destruct branch as [b|]; [|done].
  destruct (String.eqb_spec b feature) as [->|Hne].
  - by apply bool_decide_eq_true_2.
  - apply bool_decide_eq_false_2. congruence.
Qed.

End Further.

(** ** The further properties on concrete pages *)

Lemma ineligible_element_selection_witness :
  let element := Stub.ampAd [] in
  let st := constructor (Stub.world (Some "2") 0) in
  selectA4aExperiments Stub.cdn element true st
  = unconditionedSelection_ Stub.cdn element st
  ∧ result (doubleclickIsA4AEnabled Stub.cdn element true st)
    = match result (unconditionedSelection_ Stub.cdn element st) with
      | Normal _ => Normal (Js.Boolean false)
      | Thrown e => Thrown e
      end.
Proof.
  intros element st.
  apply (ineligible_element_selection Stub.cdn element true st).
  vm_compute. reflexivity.
Defined.

Local Ltac run_on_stub :=
  match goal with
  | |- ?run = _ → _ =>
      generalize run;
      let r := fresh "r" in
      let H := fresh "H" in
      intros r H; vm_compute in H; subst r;
      vm_compute; repeat split; reflexivity
  end.

Lemma canonical_experiment_selection_witness :
  let element := Stub.ampAd [] in
  let st := constructor (Stub.world None 0) in
  let r := conditionedSelection Stub.publisher element false st in
  result r = Normal Js.Undefined
  ∧ activeExperiments_ (final r) !! "21060932" = Some true
  ∧ Stub.experimentBranches (world (final r)) !! "expDfpCanonicalFf"
    = Some (Some "21060932")
  ∧ Stub.experimentBranches (world (final r)) !! "expDoubleclickA4A"
    = Some (Some "21060932")
  ∧ Stub.experimentIdsOfElement (world (final r)) = ["21060932"].
Proof.
  intros element st r. subst r.
  unshelve epose proof
    (canonical_experiment_selection Stub.publisher element false st _ _ _)
    as Hrun; try (vm_compute; reflexivity).
  revert Hrun. cbv zeta. run_on_stub.
Defined.

Lemma manual_experiment_selection_witness :
  let element := Stub.ampAd [] in
  let st : State Stub.World string :=
    constructor
      {| Stub.experimentBranches := ∅;
         Stub.experimentIdsOfElement := [];
         Stub.urlExperimentParameter := Some "-1";
         Stub.mode := {| localDev := true; test := false |};
         Stub.nativeCrypto := true;
         Stub.pick := 0 |} in
  let r := conditionedSelection Stub.publisher element false st in
  result r = Normal Js.Undefined
  ∧ activeExperiments_ (final r) !! "117152632" = Some true
  ∧ Stub.experimentBranches (world (final r)) !! "expDoubleclickA4A"
    = Some (Some "117152632")
  ∧ Stub.experimentIdsOfElement (world (final r)) = ["117152632"]
  ∧ List.length (history (final r)) = 2%nat.
Proof.
  intros element st r. subst r.
  unshelve epose proof
    (manual_experiment_selection Stub.publisher element false st _ _ _ _ _)
    as Hrun; try (vm_compute; reflexivity); [discriminate|].
  revert Hrun. cbv zeta. run_on_stub.
Defined.

Lemma holdback_internal_selection_witness :
  let element := Stub.ampAd [] in
  let st := constructor (Stub.world None 1) in
  let r := conditionedSelection Stub.cdn element false st in
  result r = Normal Js.Undefined
  ∧ activeExperiments_ (final r) !! "2092614" = Some true
  ∧ Stub.experimentBranches (world (final r)) !! "expDoubleclickA4A"
    = Some (Some "2092614")
  ∧ Stub.experimentIdsOfElement (world (final r)) = ["2092614"].
Proof.
  intros element st r. subst r.
  unshelve epose proof
    (holdback_internal_selection Stub.cdn element false st _ _ _ _)
    as Hrun; try (vm_compute; reflexivity).
  revert Hrun. cbv zeta. run_on_stub.
Defined.

Lemma url_experiment_selection_witness :
  let element := Stub.ampAd [] in
  let st := constructor (Stub.world (Some "2") 0) in
  let r := conditionedSelection Stub.cdn element false st in
  result r = Normal Js.Undefined
  ∧ activeExperiments_ (final r) !! "21060727" = Some true
  ∧ Stub.experimentBranches (world (final r)) !! "expDoubleclickA4A"
    = Some (Some "21060727")
  ∧ Stub.experimentIdsOfElement (world (final r)) = ["21060727"]
  ∧ List.length (history (final r)) = 2%nat.
Proof.
  intros element st r. subst r.
  unshelve epose proof
    (url_experiment_selection Stub.cdn element false st "2" "21060727"
       _ _ _ _ _ _)
    as Hrun; try (vm_compute; reflexivity); [discriminate|].
  revert Hrun. cbv zeta. run_on_stub.
Defined.

Lemma unmapped_url_experiment_selection_witness :
  let element := Stub.ampAd [] in
  let st := constructor (Stub.world (Some "0") 0) in
  let r := conditionedSelection Stub.cdn element false st in
  result r = Thrown "TypeError"
  ∧ activeExperiments_ (final r) = ∅
  ∧ List.map call (history (final r))
    = [CallRandomlySelectUnsetExperiments "expDoubleclickA4A" None].
Proof.
  intros element st r. subst r.
  unshelve epose proof
    (unmapped_url_experiment_selection Stub.cdn element false st "0"
       _ _ _ _ _)
    as Hrun; try (vm_compute; reflexivity).
  revert Hrun. cbv zeta. run_on_stub.
Defined.

Lemma fast_fetch_only_on_cdn_origins_witness :
  isCdnProxyOrigin "https://cdn.ampproject.org"
  ∧ eligibleByValue (Stub.ampAd []) false.
Proof.
  apply (fast_fetch_only_on_cdn_origins Stub.cdn (Stub.ampAd []) false
           (constructor (Stub.world None 0))).
  vm_compute. reflexivity.
Defined.

(** After a page view on the CDN proxy whose URL selects the external
    holdback, that feature is enabled under expDoubleclickA4A, with the
    experiment name empty or omitted, and its control is not. *)
Example experimentFeatureEnabled_after_selection :
  let st :=
    final (doubleclickIsA4AEnabled Stub.cdn (Stub.ampAd []) false
             (constructor (Stub.world (Some "2") 0))) in
  result (experimentFeatureEnabled Stub.cdn "21060727" (Some "") st)
  = Normal (Js.Boolean true)
  ∧ result (experimentFeatureEnabled Stub.cdn "21060726" None st)
    = Normal (Js.Boolean false)
  ∧ result (experimentFeatureEnabled Stub.cdn "21060727"
              (Some "expDfpCanonicalFf") st)
    = Normal (Js.Boolean false).
Proof. vm_compute. repeat split; reflexivity. Qed.
